(** * Village grievance backend: schema validators and HTTP handlers

    A shallow embedding of [shared/schema.ts] (the four tables and the
    creation-input validators derived from them) and of [registerRoutes]
    (the Express handlers of the grievance lifecycle), followed by the
    properties of the lifecycle that the specification states.

    Conventions.
    - A JSON request body is a [value]; numbers are the finite JSON numbers,
      kept as exact rationals, and the decimal notation that JavaScript
      prints a number in is taken from the host.  A JS string is a [string]
      whose [length] is the number of code units, as
      [String.prototype.length].
    - A timestamp is a time value in milliseconds since the epoch ([Z]).
    - The handlers run in a state monad over the [World]: the rows held by
      the persistence gateway, the number of clock readings and identifiers
      drawn so far, and the trace of gateway calls. *)

From Stdlib Require Import List String Ascii Bool ZArith QArith Lia.
From Stdlib Require Import DecimalString.
Import ListNotations.

Local Open Scope string_scope.
Local Open Scope list_scope.

(* ===================================================================== *)
(** ** JavaScript values as they arrive in [req.body]                     *)
(* ===================================================================== *)

Module JS.

#[local] Set Warnings "-register-all".

Inductive value : Type :=
| VUndefined
| VNull
| VBool (b : bool)
| VNum (q : Q)
| VStr (s : string)
| VArr (xs : list value)
| VObj (fields : list (string * value)).

(** A plain object: own enumerable properties in insertion order. *)
Definition object := list (string * value).

(** [typeof v] *)
Definition typeof (v : value) : string :=
  match v with
  | VUndefined => "undefined"
  | VNull => "object"
  | VBool _ => "boolean"
  | VNum _ => "number"
  | VStr _ => "string"
  | VArr _ => "object"
  | VObj _ => "object"
  end.

(** ToBoolean: [undefined], [null], [false], [0] and the empty string are
    falsy, everything else (arrays and objects included) is truthy. *)
Definition truthy (v : value) : bool :=
  match v with
  | VUndefined => false
  | VNull => false
  | VBool b => b
  | VNum q => negb (Qnum q =? 0)%Z
  | VStr s => negb (String.length s =? 0)%nat
  | VArr _ => true
  | VObj _ => true
  end.

(** [a || b] *)
Definition or (a b : value) : value := if truthy a then a else b.

(** [o[k]]: the property, [undefined] when the object has none. *)
Fixpoint get (k : string) (o : object) : value :=
  match o with
  | [] => VUndefined
  | (k', v) :: rest => if String.eqb k k' then v else get k rest
  end.

(** [k in o] *)
Fixpoint has (k : string) (o : object) : bool :=
  match o with
  | [] => false
  | (k', _) :: rest => String.eqb k k' || has k rest
  end.

Definition mem (k : string) (ks : list string) : bool :=
  existsb (String.eqb k) ks.

(** The rest of a destructuring [{ k1, ..., kn, ...rest } = o]. *)
Definition rest_without (ks : list string) (o : object) : object :=
  filter (fun kv => negb (mem (fst kv) ks)) o.

(** [{ ...o, k: v }]: an existing property keeps its place and takes the
    new value, a new one is added last. *)
Fixpoint set (k : string) (v : value) (o : object) : object :=
  match o with
  | [] => [(k, v)]
  | (k', v') :: rest =>
      if String.eqb k k' then (k', v) :: rest else (k', v') :: set k v rest
  end.

Section ToString.

(** [Number::toString], which works on the bits of a double. *)
Variable numberToString : Q -> string.

(** [String(v)]: an array prints its elements joined by commas, with
    nothing for [null] and [undefined]; a plain object prints as
    [[object Object]]. *)
Fixpoint ToString (v : value) : string :=
  match v with
  | VUndefined => "undefined"
  | VNull => "null"
  | VBool true => "true"
  | VBool false => "false"
  | VNum q => numberToString q
  | VStr s => s
  | VArr xs =>
      String.concat ","
        (map (fun x => match x with
                       | VUndefined => EmptyString
                       | VNull => EmptyString
                       | _ => ToString x
                       end) xs)
  | VObj _ => "[object Object]"
  end.

End ToString.

End JS.

Import JS.

(* ===================================================================== *)
(** ** The part of zod that the schemas use                               *)
(* ===================================================================== *)

Module Zod.

Inductive PathElem : Type :=
| PKey (k : string)
| PIndex (i : nat).

Record ZodIssue : Type := mkIssue {
  code : string;
  path : list PathElem;
  message : string
}.

(** The checks of a [z.number()], each with its message. *)
Inductive NumberCheck : Type :=
| NumMin (bound : Z) (message : string)
| NumMax (bound : Z) (message : string)
| NumInt.

Inductive ZodType : Type :=
| ZString (min : option (nat * string))
| ZCoerceString
| ZNumber (checks : list NumberCheck)
| ZBoolean
| ZDate
| ZEnum (options : list string)
| ZArray (elem : ZodType)
| ZOptional (inner : ZodType)
| ZNullable (inner : ZodType).

(** zod's name for the type of the data it received. *)
Definition parsedType (v : value) : string :=
  match v with
  | VUndefined => "undefined"
  | VNull => "null"
  | VBool _ => "boolean"
  | VNum _ => "number"
  | VStr _ => "string"
  | VArr _ => "array"
  | VObj _ => "object"
  end.

Definition invalid_type (expected : string) (p : list PathElem) (v : value)
  : ZodIssue :=
  match v with
  | VUndefined => mkIssue "invalid_type" p "Required"
  | _ => mkIssue "invalid_type" p
           ("Expected " ++ expected ++ ", received " ++ parsedType v)
  end.

Definition quote (s : string) : string := "'" ++ s ++ "'".

Definition invalid_enum (options : list string) (p : list PathElem)
  (s : string) : ZodIssue :=
  mkIssue "invalid_enum_value" p
    ("Invalid enum value. Expected " ++ String.concat " | " (map quote options)
       ++ ", received " ++ quote s).

Definition isInteger (q : Q) : bool :=
  (Qnum q mod Zpos (Qden q) =? 0)%Z.

(** One check of a number: the issue it raises, if any.  The checks do
    not stop at the first failure. *)
Definition checkNumber (p : list PathElem) (q : Q) (c : NumberCheck)
  : list ZodIssue :=
  match c with
  | NumMin bound msg =>
      if Qle_bool (inject_Z bound) q then [] else [mkIssue "too_small" p msg]
  | NumMax bound msg =>
      if Qle_bool q (inject_Z bound) then [] else [mkIssue "too_big" p msg]
  | NumInt =>
      if isInteger q then []
      else [mkIssue "invalid_type" p "Expected integer, received float"]
  end.

(** [schema._parse] at path [p]: the issues raised by [v]. *)
Fixpoint check (t : ZodType) (p : list PathElem) (v : value)
  : list ZodIssue :=
  match t with
  | ZString min =>
      match v with
      | VStr s =>
          match min with
          | Some (n, msg) =>
              if (String.length s <? n)%nat
              then [mkIssue "too_small" p msg] else []
          | None => []
          end
      | _ => [invalid_type "string" p v]
      end
  | ZCoerceString => []
  | ZNumber checks =>
      match v with
      | VNum q => flat_map (checkNumber p q) checks
      | _ => [invalid_type "number" p v]
      end
  | ZBoolean =>
      match v with VBool _ => [] | _ => [invalid_type "boolean" p v] end
  | ZDate => [invalid_type "date" p v]
  | ZEnum options =>
      match v with
      | VStr s => if mem s options then [] else [invalid_enum options p s]
      | _ => [invalid_type (String.concat " | " (map quote options)) p v]
      end
  | ZArray elem =>
      match v with
      | VArr xs =>
          (fix each (i : nat) (xs : list value) : list ZodIssue :=
             match xs with
             | [] => []
             | x :: rest => check elem (p ++ [PIndex i]) x ++ each (S i) rest
             end) 0%nat xs
      | _ => [invalid_type "array" p v]
      end
  | ZOptional inner =>
      match v with VUndefined => [] | _ => check inner p v end
  | ZNullable inner =>
      match v with VNull => [] | _ => check inner p v end
  end.

(** The shape of a [z.object]: its keys in declaration order. *)
Definition ZodObject := list (string * ZodType).

(** [.omit({ k: true, ... })] *)
Definition omit (ks : list string) (shape : ZodObject) : ZodObject :=
  filter (fun kt => negb (mem (fst kt) ks)) shape.

(** [.extend({ k: t })] for one key: [{ ...shape, k: t }]. *)
Fixpoint extend1 (k : string) (t : ZodType) (shape : ZodObject) : ZodObject :=
  match shape with
  | [] => [(k, t)]
  | (k', t') :: rest =>
      if String.eqb k k' then (k', t) :: rest else (k', t') :: extend1 k t rest
  end.

(** [.extend({ k1: t1, ..., kn: tn })] *)
Definition extend (aug : ZodObject) (shape : ZodObject) : ZodObject :=
  fold_left (fun sh kt => extend1 (fst kt) (snd kt) sh) aug shape.

Definition keys (shape : ZodObject) : list string := map fst shape.

(** The type that a shape gives a key. *)
Definition typeOf (k : string) (shape : ZodObject) : option ZodType :=
  option_map snd (find (fun kt => String.eqb k (fst kt)) shape).

(** The issues of every key of the shape, in shape order. *)
Definition issues (shape : ZodObject) (o : object) : list ZodIssue :=
  flat_map (fun kt => check (snd kt) [PKey (fst kt)] (get (fst kt) o)) shape.

Definition isUndefined (v : value) : bool :=
  match v with VUndefined => true | _ => false end.

Section Output.

(** [String(v)], as [z.coerce.string()] applies it. *)
Variable toString : value -> string.

(** The value that a successful parse gives back: the data itself, but
    for what a coercing type has made of it. *)
Fixpoint output (t : ZodType) (v : value) : value :=
  match t with
  | ZCoerceString => VStr (toString v)
  | ZArray elem =>
      match v with VArr xs => VArr (map (output elem) xs) | _ => v end
  | ZOptional inner =>
      match v with VUndefined => VUndefined | _ => output inner v end
  | ZNullable inner =>
      match v with VNull => VNull | _ => output inner v end
  | _ => v
  end.

(** The parsed object: keys outside the shape are stripped, a key of the
    shape is kept when the data has it or its parsed value is not
    [undefined]. *)
Definition strip (shape : ZodObject) (o : object) : object :=
  flat_map (fun kt =>
              let v := output (snd kt) (get (fst kt) o) in
              if has (fst kt) o || negb (isUndefined v)
              then [(fst kt, v)] else [])
           shape.

End Output.

Inductive result (A : Type) : Type :=
| Ok (data : A)
| ZodError (errors : list ZodIssue).
Arguments Ok {A} data.
Arguments ZodError {A} errors.

(** [schema.parse(o)]: the stripped data, or a [ZodError] thrown with all
    the issues. *)
Definition parse (toString : value -> string) (shape : ZodObject)
  (o : object) : result object :=
  match issues shape o with
  | [] => Ok (strip toString shape o)
  | e :: es => ZodError (e :: es)
  end.

End Zod.

(* ===================================================================== *)
(** ** [shared/schema.ts]: tables and creation-input validators           *)
(* ===================================================================== *)

Module Schema.

Import Zod.

Inductive ColumnType : Type :=
| PgText
| PgVarchar
| PgInteger
| PgBoolean
| PgTimestamp
| PgArray (base : ColumnType).

(** What a column takes when an insert leaves it out. *)
Inductive ColumnDefault : Type :=
| DefaultValue (v : value)
| DefaultNow
| DefaultRandomUuid.

Record Column : Type := mkColumn {
  dbName : string;
  dataType : ColumnType;
  isNotNull : bool;
  isUnique : bool;
  isPrimary : bool;
  hasDefault : option ColumnDefault;
  foreignKey : option (string * string)
}.

Definition column (t : ColumnType) (n : string) : Column :=
  mkColumn n t false false false None None.

Definition text := column PgText.
Definition varchar := column PgVarchar.
Definition integer := column PgInteger.
Definition boolean := column PgBoolean.
Definition timestamp := column PgTimestamp.

Definition notNull (c : Column) : Column :=
  mkColumn (dbName c) (dataType c) true (isUnique c) (isPrimary c)
           (hasDefault c) (foreignKey c).

Definition unique (c : Column) : Column :=
  mkColumn (dbName c) (dataType c) (isNotNull c) true (isPrimary c)
           (hasDefault c) (foreignKey c).

Definition primaryKey (c : Column) : Column :=
  mkColumn (dbName c) (dataType c) true (isUnique c) true
           (hasDefault c) (foreignKey c).

Definition withDefault (d : ColumnDefault) (c : Column) : Column :=
  mkColumn (dbName c) (dataType c) (isNotNull c) (isUnique c) (isPrimary c)
           (Some d) (foreignKey c).

Definition default (v : value) := withDefault (DefaultValue v).
Definition defaultNow := withDefault DefaultNow.

Definition array (c : Column) : Column :=
  mkColumn (dbName c) (PgArray (dataType c)) (isNotNull c) (isUnique c)
           (isPrimary c) (hasDefault c) (foreignKey c).

Definition references (table key : string) (c : Column) : Column :=
  mkColumn (dbName c) (dataType c) (isNotNull c) (isUnique c) (isPrimary c)
           (hasDefault c) (Some (table, key)).

(** A table: its columns under their TypeScript keys, in declaration
    order. *)
Definition Table := list (string * Column).

Definition users : Table :=
  [ ("id", withDefault DefaultRandomUuid (primaryKey (varchar "id")));
    ("username", unique (notNull (text "username")));
    ("password", notNull (text "password"));
    ("fullName", notNull (text "full_name"));
    ("role", default (VStr "citizen") (notNull (text "role")));
    ("mobileNumber", notNull (text "mobile_number"));
    ("email", text "email");
    ("villageName", text "village_name");
    ("createdAt", notNull (defaultNow (timestamp "created_at"))) ].

Definition grievances : Table :=
  [ ("id", withDefault DefaultRandomUuid (primaryKey (varchar "id")));
    ("grievanceNumber", unique (notNull (text "grievance_number")));
    ("userId", notNull (references "users" "id" (varchar "user_id")));
    ("title", notNull (text "title"));
    ("category", notNull (text "category"));
    ("description", notNull (text "description"));
    ("villageName", notNull (text "village_name"));
    ("status", default (VStr "pending") (notNull (text "status")));
    ("priority", default (VStr "medium") (notNull (text "priority")));
    ("evidenceFiles", array (text "evidence_files"));
    ("voiceRecordingUrl", text "voice_recording_url");
    ("voiceTranscription", text "voice_transcription");
    ("assignedTo", references "users" "id" (varchar "assigned_to"));
    ("resolutionTimeline", integer "resolution_timeline");
    ("dueDate", timestamp "due_date");
    ("resolvedAt", timestamp "resolved_at");
    ("resolutionNotes", text "resolution_notes");
    ("resolutionEvidence", array (text "resolution_evidence"));
    ("verificationDeadline", timestamp "verification_deadline");
    ("isEscalated", default (VBool false) (boolean "is_escalated"));
    ("escalatedAt", timestamp "escalated_at");
    ("createdAt", notNull (defaultNow (timestamp "created_at")));
    ("updatedAt", notNull (defaultNow (timestamp "updated_at"))) ].

Definition verifications : Table :=
  [ ("id", withDefault DefaultRandomUuid (primaryKey (varchar "id")));
    ("grievanceId",
       notNull (references "grievances" "id" (varchar "grievance_id")));
    ("userId", notNull (references "users" "id" (varchar "user_id")));
    ("verificationType", notNull (text "verification_type"));
    ("status", notNull (text "status"));
    ("comments", text "comments");
    ("evidenceFiles", array (text "evidence_files"));
    ("createdAt", notNull (defaultNow (timestamp "created_at"))) ].

(** The static default of a column of a table, if it has one. *)
Definition staticDefault (t : Table) (key : string) : option value :=
  match find (fun kc => String.eqb key (fst kc)) t with
  | Some (_, c) =>
      match hasDefault c with
      | Some (DefaultValue v) => Some v
      | _ => None
      end
  | None => None
  end.

Definition INT32_MIN : Z := -2147483648.
Definition INT32_MAX : Z := 2147483647.

(** drizzle-zod, column by column: the zod type of the column's data
    type, nullable and optional when the column may be NULL, optional when
    it is NOT NULL with a default, required otherwise.  An integer column
    is a number within the range of a 32-bit integer that is an integer.
    The elements of an array column go through the coercing variant of
    their type: for the text arrays of this schema, [z.coerce.string()],
    which takes any element and turns it into a string.  (No table here
    has an array of another element type; such elements are given their
    plain type.) *)
Fixpoint columnType (t : ColumnType) : ZodType :=
  match t with
  | PgText => ZString None
  | PgVarchar => ZString None
  | PgInteger =>
      ZNumber
        [ NumMin INT32_MIN
            "Number must be greater than or equal to -2147483648";
          NumMax INT32_MAX
            "Number must be less than or equal to 2147483647";
          NumInt ]
  | PgBoolean => ZBoolean
  | PgTimestamp => ZDate
  | PgArray base =>
      ZArray match base with
             | PgText => ZCoerceString
             | PgVarchar => ZCoerceString
             | other => columnType other
             end
  end.

Definition columnSchema (c : Column) : ZodType :=
  let t := columnType (dataType c) in
  if negb (isNotNull c) then ZOptional (ZNullable t)
  else match hasDefault c with
       | Some _ => ZOptional t
       | None => t
       end.

Definition createInsertSchema (t : Table) : ZodObject :=
  map (fun kc => (fst kc, columnSchema (snd kc))) t.

Definition categories : list string :=
  [ "Water Supply";
    "Road & Infrastructure";
    "Electricity";
    "Sanitation & Waste Management";
    "Healthcare";
    "Education";
    "Agriculture Support";
    "Social Welfare Schemes";
    "Other" ].

(** The keys that [insertGrievanceSchema] omits. *)
Definition grievanceOmitted : list string :=
  [ "id"; "grievanceNumber"; "status"; "isEscalated"; "escalatedAt";
    "createdAt"; "updatedAt"; "userId"; "assignedTo"; "resolvedAt";
    "verificationDeadline" ].

Definition insertGrievanceSchema : ZodObject :=
  extend
    [ ("title", ZString (Some (10%nat, "Title must be at least 10 characters")));
      ("description",
         ZString (Some (50%nat, "Description must be at least 50 characters")));
      ("category", ZEnum categories) ]
    (omit grievanceOmitted (createInsertSchema grievances)).

Definition insertVerificationSchema : ZodObject :=
  extend
    [ ("verificationType", ZEnum ["verify"; "dispute"]);
      ("status", ZEnum ["verified"; "disputed"]) ]
    (omit ["id"; "createdAt"; "userId"] (createInsertSchema verifications)).

(** The fourth table, and the two creation validators that no handler
    of [registerRoutes] parses with. *)
Definition blockchainRecords : Table :=
  [ ("id", withDefault DefaultRandomUuid (primaryKey (varchar "id")));
    ("grievanceId",
       notNull (references "grievances" "id" (varchar "grievance_id")));
    ("transactionHash", unique (notNull (text "transaction_hash")));
    ("blockNumber", text "block_number");
    ("eventType", notNull (text "event_type"));
    ("eventData", notNull (text "event_data"));
    ("timestamp", notNull (defaultNow (timestamp "timestamp"))) ].

Definition insertUserSchema : ZodObject :=
  omit ["id"; "createdAt"] (createInsertSchema users).

Definition insertBlockchainRecordSchema : ZodObject :=
  omit ["id"; "timestamp"] (createInsertSchema blockchainRecords).

End Schema.

Import Zod Schema.

(* ===================================================================== *)
(** ** Rows ([$inferSelect] of each table)                                *)
(* ===================================================================== *)

(** A [Date]: its time value, milliseconds since the epoch. *)
Definition Date := Z.

Module User.
Record t : Type := mk {
  id : string;
  username : string;
  password : string;
  fullName : string;
  role : string;
  mobileNumber : string;
  email : option string;
  villageName : option string;
  createdAt : Date
}.
End User.

Module Grievance.
Record t : Type := mk {
  id : string;
  grievanceNumber : string;
  userId : string;
  title : string;
  category : string;
  description : string;
  villageName : string;
  status : string;
  priority : string;
  evidenceFiles : option (list string);
  voiceRecordingUrl : option string;
  voiceTranscription : option string;
  assignedTo : option string;
  resolutionTimeline : option Q;
  dueDate : option Date;
  resolvedAt : option Date;
  resolutionNotes : option string;
  resolutionEvidence : option (list string);
  verificationDeadline : option Date;
  isEscalated : option bool;
  escalatedAt : option Date;
  createdAt : Date;
  updatedAt : Date
}.

Definition with_status (s : string) (g : t) : t :=
  mk (id g) (grievanceNumber g) (userId g) (title g) (category g)
     (description g) (villageName g) s (priority g) (evidenceFiles g)
     (voiceRecordingUrl g) (voiceTranscription g) (assignedTo g)
     (resolutionTimeline g) (dueDate g) (resolvedAt g) (resolutionNotes g)
     (resolutionEvidence g) (verificationDeadline g) (isEscalated g)
     (escalatedAt g) (createdAt g) (updatedAt g).

Definition with_assignment (officer : string) (days : Q) (g : t) : t :=
  mk (id g) (grievanceNumber g) (userId g) (title g) (category g)
     (description g) (villageName g) (status g) (priority g) (evidenceFiles g)
     (voiceRecordingUrl g) (voiceTranscription g) (Some officer)
     (Some days) (dueDate g) (resolvedAt g) (resolutionNotes g)
     (resolutionEvidence g) (verificationDeadline g) (isEscalated g)
     (escalatedAt g) (createdAt g) (updatedAt g).

(** The [updates] object that the status handler builds: each property
    is either set or left out. *)
Record updates : Type := mkUpdates {
  u_resolutionNotes : option string;
  u_resolutionEvidence : option (list string);
  u_resolvedAt : option Date;
  u_verificationDeadline : option Date;
  u_status : option string
}.

Definition no_updates : updates := mkUpdates None None None None None.

Definition override {A : Type} (new : option A) (old : option A) : option A :=
  match new with Some x => Some x | None => old end.

(** [{ ...g, ...u }] *)
Definition merge (u : updates) (g : t) : t :=
  mk (id g) (grievanceNumber g) (userId g) (title g) (category g)
     (description g) (villageName g)
     (match u_status u with Some s => s | None => status g end)
     (priority g) (evidenceFiles g)
     (voiceRecordingUrl g) (voiceTranscription g) (assignedTo g)
     (resolutionTimeline g) (dueDate g)
     (override (u_resolvedAt u) (resolvedAt g))
     (override (u_resolutionNotes u) (resolutionNotes g))
     (override (u_resolutionEvidence u) (resolutionEvidence g))
     (override (u_verificationDeadline u) (verificationDeadline g))
     (isEscalated g) (escalatedAt g) (createdAt g) (updatedAt g).
End Grievance.

Module Verification.
Record t : Type := mk {
  id : string;
  grievanceId : string;
  userId : string;
  verificationType : string;
  status : string;
  comments : option string;
  evidenceFiles : option (list string);
  createdAt : Date
}.
End Verification.

(** [InsertUser], as the handlers build it. *)
Record InsertUser : Type := mkInsertUser {
  iu_username : string;
  iu_password : string;
  iu_fullName : string;
  iu_mobileNumber : string;
  iu_email : option string;
  iu_villageName : option string;
  iu_role : option string
}.

(** Reading a validated property at the type its column has. *)
Definition asString (v : value) : string :=
  match v with VStr s => s | _ => EmptyString end.

Definition asOptString (v : value) : option string :=
  match v with VStr s => Some s | _ => None end.

Definition asOptStrings (v : value) : option (list string) :=
  match v with VArr xs => Some (map asString xs) | _ => None end.

Definition asNumber (v : value) : Q :=
  match v with VNum q => q | _ => 0%Q end.

Definition asOptNumber (v : value) : option Q :=
  match v with VNum q => Some q | _ => None end.

(** [v === s] for a string literal [s]. *)
Definition strictEq (v : value) (s : string) : bool :=
  match v with VStr s' => String.eqb s' s | _ => false end.

(* ===================================================================== *)
(** ** The world the handlers run in                                      *)
(* ===================================================================== *)

(** What the host supplies and the program does not decide: the successive
    readings of the clock, the local time zone adjustment of ECMA-262
    ([LocalTZA t isUTC], in milliseconds), the successive identifiers
    that [gen_random_uuid()] draws, and the notation that
    [Number::toString] prints a number in. *)
Record Host : Type := mkHost {
  clock : nat -> Date;
  LocalTZA : Z -> bool -> Z;
  uuid : nat -> string;
  numberToString : Q -> string
}.

(** [String(v)] on the host. *)
Definition toStringOn (host : Host) : value -> string :=
  ToString (numberToString host).

(** The calls made on the persistence gateway. *)
Inductive Call : Type :=
| CallGetUserByUsername (name : string)
| CallCreateUser (name : string)
| CallGetGrievance (id : string)
| CallGetAllGrievances
| CallCreateGrievance (validatedData : object)
    (userId : string) (fullName mobileNumber : value)
| CallUpdateGrievanceStatus (id : string) (status : string)
| CallAcceptGrievance (id : string)
| CallCreateVerification (grievanceId : string)
| CallGetVerificationsByGrievance (grievanceId : string).

Record World : Type := mkWorld {
  users : list User.t;
  grievances : list Grievance.t;
  verifications : list Verification.t;
  clockReads : nat;
  uuidsDrawn : nat;
  calls : list Call
}.

Definition emptyWorld : World := mkWorld [] [] [] 0 0 [].

(** The state monad of the handlers: every [await] is a bind. *)
Definition M (A : Type) : Type := World -> A * World.

Definition ret {A : Type} (x : A) : M A := fun w => (x, w).

Definition bind {A B : Type} (c : M A) (k : A -> M B) : M B :=
  fun w => let (x, w') := c w in k x w'.

Notation "x <- c ;; k" := (bind c (fun x => k))
  (at level 61, c at next level, right associativity).
Notation "c ;; k" := (bind c (fun _ => k))
  (at level 61, right associativity).

Definition msPerDay : Z := 86400000.

Module Clock.
Section Clock.
Variable host : Host.

(** [new Date()]: the next reading of the clock. *)
Definition newDate : M Date :=
  fun w => (clock host (clockReads w),
            mkWorld (users w) (grievances w) (verifications w)
                    (S (clockReads w)) (uuidsDrawn w) (calls w)).

(** [LocalTime(t)] and [UTC(t)] of ECMA-262. *)
Definition LocalTime (t : Z) : Z := (t + LocalTZA host t true)%Z.
Definition UTC (t : Z) : Z := (t - LocalTZA host t false)%Z.

(** [d.setDate(d.getDate() + n)]: the day of the month is read and set in
    local time, and [MakeDay] carries a day number past the end of the
    month into the following days, so the local time moves by [n] whole
    days and is converted back. *)
Definition setDate_getDate_plus (n : Z) (d : Date) : Date :=
  UTC (LocalTime d + n * msPerDay)%Z.

End Clock.
End Clock.

(* ===================================================================== *)
(** ** The persistence gateway ([./storage])                              *)
(* ===================================================================== *)

Module Storage.
Section Storage.
Variable host : Host.

Definition log (c : Call) : M unit :=
  fun w => (tt, mkWorld (users w) (grievances w) (verifications w)
                        (clockReads w) (uuidsDrawn w) (calls w ++ [c])).

(** [gen_random_uuid()]: the next identifier. *)
Definition randomUuid : M string :=
  fun w => (uuid host (uuidsDrawn w),
            mkWorld (users w) (grievances w) (verifications w)
                    (clockReads w) (S (uuidsDrawn w)) (calls w)).

(** [defaultNow()] *)
Definition now : M Date := Clock.newDate host.

Definition readWorld : M World := fun w => (w, w).

Definition putUsers (us : list User.t) : M unit :=
  fun w => (tt, mkWorld us (grievances w) (verifications w)
                        (clockReads w) (uuidsDrawn w) (calls w)).

Definition putGrievances (gs : list Grievance.t) : M unit :=
  fun w => (tt, mkWorld (users w) gs (verifications w)
                        (clockReads w) (uuidsDrawn w) (calls w)).

Definition putVerifications (vs : list Verification.t) : M unit :=
  fun w => (tt, mkWorld (users w) (grievances w) vs
                        (clockReads w) (uuidsDrawn w) (calls w)).

Definition defaultString (t : Table) (key : string) : string :=
  match staticDefault t key with Some v => asString v | None => EmptyString end.

Definition hasId (id : string) (g : Grievance.t) : bool :=
  String.eqb (Grievance.id g) id.

(** Modelled from the spec: [getUserByUsername(name)] of the storage
    module, which is not among the sources; section 6 gives it as
    User or absent. *)
Definition getUserByUsername (name : string) : M (option User.t) :=
  log (CallGetUserByUsername name) ;;
  w <- readWorld ;;
  ret (find (fun u => String.eqb (User.username u) name) (users w)).

(** Modelled from the spec: [createUser(fields)] of the storage module;
    the row takes the table's defaults for [id], [role] and [createdAt]. *)
Definition createUser (u : InsertUser) : M User.t :=
  log (CallCreateUser (iu_username u)) ;;
  id <- randomUuid ;;
  createdAt <- now ;;
  let row :=
    User.mk id (iu_username u) (iu_password u) (iu_fullName u)
            (match iu_role u with
             | Some r => r
             | None => defaultString Schema.users "role"
             end)
            (iu_mobileNumber u) (iu_email u) (iu_villageName u) createdAt in
  w <- readWorld ;;
  putUsers (users w ++ [row]) ;;
  ret row.

(** Modelled from the spec: [getGrievance(id)] of the storage module:
    Grievance or absent. *)
Definition getGrievance (id : string) : M (option Grievance.t) :=
  log (CallGetGrievance id) ;;
  w <- readWorld ;;
  ret (find (hasId id) (grievances w)).

(** Modelled from the spec: [getAllGrievances()] of the storage module:
    the ordered sequence of all grievances. *)
Definition getAllGrievances : M (list Grievance.t) :=
  log CallGetAllGrievances ;;
  w <- readWorld ;;
  ret (grievances w).

(** Modelled from the spec: [createGrievance(validatedInput, ownerId,
    ownerFullName, ownerMobile)] of the storage module (section 4.2,
    create): the owner is the user record keyed by the provided mobile
    number, created when there is none (the handler passes the name and the
    number as it received them; they are read as strings here); a new
    grievance number is assigned;
    the columns that the validated input does not carry take their table
    defaults, so [status] is [pending]. *)
Definition createGrievance (validatedData : object)
  (userId : string) (fullName mobileNumber : value) : M Grievance.t :=
  log (CallCreateGrievance validatedData userId fullName mobileNumber) ;;
  w <- readWorld ;;
  owner <- match find (fun u => String.eqb (User.mobileNumber u)
                                           (asString mobileNumber))
                      (users w) with
           | Some u => ret u
           | None =>
               id <- randomUuid ;;
               createdAt <- now ;;
               let u := User.mk id (asString mobileNumber) "temp"
                                (asString fullName)
                                (defaultString Schema.users "role")
                                (asString mobileNumber) None None
                                createdAt in
               w <- readWorld ;;
               putUsers (users w ++ [u]) ;;
               ret u
           end ;;
  id <- randomUuid ;;
  number <- randomUuid ;;
  createdAt <- now ;;
  let row :=
    Grievance.mk id ("GRV-" ++ number) (User.id owner)
      (asString (get "title" validatedData))
      (asString (get "category" validatedData))
      (asString (get "description" validatedData))
      (asString (get "villageName" validatedData))
      (defaultString Schema.grievances "status")
      (match get "priority" validatedData with
       | VStr p => p
       | _ => defaultString Schema.grievances "priority"
       end)
      (asOptStrings (get "evidenceFiles" validatedData))
      (asOptString (get "voiceRecordingUrl" validatedData))
      (asOptString (get "voiceTranscription" validatedData))
      None
      (asOptNumber (get "resolutionTimeline" validatedData))
      None
      None
      (asOptString (get "resolutionNotes" validatedData))
      (asOptStrings (get "resolutionEvidence" validatedData))
      None
      (Some false)
      None
      createdAt createdAt in
  w <- readWorld ;;
  putGrievances (grievances w ++ [row]) ;;
  ret row.

(** Modelled from the spec: [updateGrievanceStatus(id, status,
    extraFields)] of the storage module (section 4.2, updateStatus): the
    record with this id takes the status and the extra fields; absent when
    no record has the id.  The extra fields may be left out. *)
Definition updateGrievanceStatus (id : string) (status : string)
  (updates : option Grievance.updates) : M (option Grievance.t) :=
  log (CallUpdateGrievanceStatus id status) ;;
  w <- readWorld ;;
  let change g :=
    let g' := Grievance.with_status status g in
    match updates with
    | Some u => Grievance.merge u g'
    | None => g'
    end in
  putGrievances
    (map (fun g => if hasId id g then change g else g) (grievances w)) ;;
  ret (option_map change (find (hasId id) (grievances w))).

(** Modelled from the spec: [acceptGrievance(id, officerId, timelineDays)]
    of the storage module (section 4.2, accept): sets [assignedTo],
    [resolutionTimeline] and status [in_progress]; absent when no record
    has the id. *)
Definition acceptGrievance (id : string) (officerId : string)
  (resolutionTimeline : Q) : M (option Grievance.t) :=
  log (CallAcceptGrievance id) ;;
  w <- readWorld ;;
  let change g :=
    Grievance.with_status "in_progress"
      (Grievance.with_assignment officerId resolutionTimeline g) in
  putGrievances
    (map (fun g => if hasId id g then change g else g) (grievances w)) ;;
  ret (option_map change (find (hasId id) (grievances w))).

(** Modelled from the spec: [createVerification(validatedInput,
    verifierId)] of the storage module (section 4.2, recordVerification):
    persists a new row tied to the grievance id and the verifier. *)
Definition createVerification (validatedData : object) (verifierId : string)
  : M Verification.t :=
  log (CallCreateVerification (asString (get "grievanceId" validatedData))) ;;
  id <- randomUuid ;;
  createdAt <- now ;;
  let row :=
    Verification.mk id
      (asString (get "grievanceId" validatedData))
      verifierId
      (asString (get "verificationType" validatedData))
      (asString (get "status" validatedData))
      (asOptString (get "comments" validatedData))
      (asOptStrings (get "evidenceFiles" validatedData))
      createdAt in
  w <- readWorld ;;
  putVerifications (verifications w ++ [row]) ;;
  ret row.

(** Modelled from the spec: [getVerificationsByGrievance(id)] of the
    storage module: the ordered sequence of the grievance's
    verifications. *)
Definition getVerificationsByGrievance (id : string)
  : M (list Verification.t) :=
  log (CallGetVerificationsByGrievance id) ;;
  w <- readWorld ;;
  ret (filter (fun v => String.eqb (Verification.grievanceId v) id)
              (verifications w)).

End Storage.
End Storage.

(* ===================================================================== *)
(** ** [registerRoutes]: the HTTP handlers                                *)
(* ===================================================================== *)

Module Routes.

Inductive Json : Type :=
| JGrievances (gs : list Grievance.t)
| JGrievance (g : Grievance.t)
| JVerifications (vs : list Verification.t)
| JVerification (v : Verification.t)
| JError (error : string)
| JValidationFailed (error : string) (details : list ZodIssue).

Record Response : Type := mkResponse {
  statusCode : nat;
  body : Json
}.

(** [res.json(x)] answers 200, [res.status(n).json(x)] answers [n].  The
    gateway of the model raises no exception, so the [catch] branches that
    answer 500 have no counterpart here; the one exception the handlers
    tell apart, [ZodError], is the [ZodError] result of [parse]. *)
Definition json (x : Json) : M Response := ret (mkResponse 200 x).
Definition status_json (n : nat) (x : Json) : M Response :=
  ret (mkResponse n x).

(** The body of [PATCH /api/grievances/:id/status].  The handler checks no
    type, so the body is taken at the types of the columns it feeds:
    [None] is a property that is missing.  A truthy value of another type,
    which the handler would pass on as it is, is outside this model. *)
Record StatusBody : Type := mkStatusBody {
  status : option string;
  resolutionNotes : option string;
  resolutionEvidence : option (list string)
}.

Definition truthyString (s : option string) : bool :=
  match s with Some s => truthy (VStr s) | None => false end.

Definition truthyArray (xs : option (list string)) : bool :=
  match xs with Some _ => true | None => false end.

Section Routes.
Variable host : Host.

(** [GET /api/grievances] *)
Definition getGrievances : M Response :=
  grievances <- Storage.getAllGrievances ;;
  json (JGrievances grievances).

(** [GET /api/grievances/assigned] *)
Definition getGrievancesAssigned : M Response :=
  grievances <- Storage.getAllGrievances ;;
  let pendingOrAssigned :=
    filter (fun g => String.eqb (Grievance.status g) "pending"
                     || String.eqb (Grievance.status g) "in_progress")
           grievances in
  json (JGrievances pendingOrAssigned).

(** [GET /api/grievances/:id] *)
Definition getGrievanceById (id : string) : M Response :=
  grievance <- Storage.getGrievance id ;;
  match grievance with
  | None => status_json 404 (JError "Grievance not found")
  | Some g => json (JGrievance g)
  end.

(** [POST /api/grievances] *)
Definition postGrievances (body : object) : M Response :=
  let fullName := get "fullName" body in
  let mobileNumber := get "mobileNumber" body in
  let email := get "email" body in
  let grievanceData :=
    rest_without ["fullName"; "mobileNumber"; "email"] body in
  match parse (toStringOn host) insertGrievanceSchema
              (set "email" (or email VNull) grievanceData) with
  | ZodError errors =>
      status_json 400 (JValidationFailed "Validation failed" errors)
  | Ok validatedData =>
      if negb (truthy fullName) || negb (truthy mobileNumber) then
        status_json 400 (JError "Full name and mobile number are required")
      else
        grievance <- Storage.createGrievance host validatedData
                       "temp-user-id" fullName mobileNumber ;;
        status_json 201 (JGrievance grievance)
  end.

(** [POST /api/grievances/:id/accept] *)
Definition postGrievanceAccept (id : string) (body : object) : M Response :=
  let resolutionTimeline := get "resolutionTimeline" body in
  if negb (truthy resolutionTimeline)
     || negb (String.eqb (typeof resolutionTimeline) "number") then
    status_json 400 (JError "Resolution timeline is required")
  else
    found <- Storage.getUserByUsername "panchayat-officer" ;;
    officer <- match found with
               | Some officer => ret officer
               | None =>
                   Storage.createUser host
                     (mkInsertUser "panchayat-officer" "temp"
                        "Panchayat Officer" "+919999999999"
                        (Some "officer@panchayat.gov.in")
                        (Some "Demo Village") (Some "official"))
               end ;;
    grievance <- Storage.acceptGrievance id (User.id officer)
                   (asNumber resolutionTimeline) ;;
    match grievance with
    | None => status_json 404 (JError "Grievance not found")
    | Some g => json (JGrievance g)
    end.

(** [PATCH /api/grievances/:id/status] *)
Definition patchGrievanceStatus (id : string) (body : StatusBody)
  : M Response :=
  match status body with
  | None => status_json 400 (JError "Status is required")
  | Some status =>
      if negb (truthy (VStr status)) then
        status_json 400 (JError "Status is required")
      else
        let updates := Grievance.no_updates in
        let updates :=
          if truthyString (resolutionNotes body) then
            Grievance.mkUpdates (resolutionNotes body)
              (Grievance.u_resolutionEvidence updates)
              (Grievance.u_resolvedAt updates)
              (Grievance.u_verificationDeadline updates)
              (Grievance.u_status updates)
          else updates in
        let updates :=
          if truthyArray (resolutionEvidence body) then
            Grievance.mkUpdates (Grievance.u_resolutionNotes updates)
              (resolutionEvidence body)
              (Grievance.u_resolvedAt updates)
              (Grievance.u_verificationDeadline updates)
              (Grievance.u_status updates)
          else updates in
        updates <-
          (if String.eqb status "resolved" then
             resolvedAt <- Clock.newDate host ;;
             verificationDeadline <- Clock.newDate host ;;
             let verificationDeadline :=
               Clock.setDate_getDate_plus host 7 verificationDeadline in
             ret (Grievance.mkUpdates (Grievance.u_resolutionNotes updates)
                    (Grievance.u_resolutionEvidence updates)
                    (Some resolvedAt)
                    (Some verificationDeadline)
                    (Some "pending_verification"))
           else ret updates) ;;
        grievance <- Storage.updateGrievanceStatus id
                       (if String.eqb status "resolved"
                        then "pending_verification" else status)
                       (Some updates) ;;
        match grievance with
        | None => status_json 404 (JError "Grievance not found")
        | Some g => json (JGrievance g)
        end
  end.

(** [POST /api/verifications] *)
Definition postVerifications (body : object) : M Response :=
  match parse (toStringOn host) insertVerificationSchema body with
  | ZodError errors =>
      status_json 400 (JValidationFailed "Validation failed" errors)
  | Ok validatedData =>
      found <- Storage.getUserByUsername "community-verifier" ;;
      verifier <- match found with
                  | Some verifier => ret verifier
                  | None =>
                      Storage.createUser host
                        (mkInsertUser "community-verifier" "temp"
                           "Community Verifier" "+919888888888"
                           (Some "verifier@community.local")
                           (Some "Demo Village") (Some "citizen"))
                  end ;;
      verification <- Storage.createVerification host validatedData
                        (User.id verifier) ;;
      (if strictEq (get "verificationType" validatedData) "verify"
          && strictEq (get "status" validatedData) "verified" then
         Storage.updateGrievanceStatus
           (asString (get "grievanceId" validatedData)) "resolved" None ;;
         ret tt
       else if strictEq (get "verificationType" validatedData) "dispute"
               && strictEq (get "status" validatedData) "disputed" then
         Storage.updateGrievanceStatus
           (asString (get "grievanceId" validatedData)) "in_progress" None ;;
         ret tt
       else ret tt) ;;
      status_json 201 (JVerification verification)
  end.

(** [GET /api/verifications/:grievanceId] *)
Definition getVerifications (grievanceId : string) : M Response :=
  verifications <- Storage.getVerificationsByGrievance grievanceId ;;
  json (JVerifications verifications).

End Routes.
End Routes.

(* ===================================================================== *)
(** ** The lifecycle, as the specification words it                       *)
(* ===================================================================== *)

Module Lifecycle.

Import Routes.

(** The record an id resolves to, and its status. *)
Definition lookup (id : string) (w : World) : option Grievance.t :=
  find (Storage.hasId id) (grievances w).

Definition statusOf (id : string) (w : World) : option string :=
  option_map Grievance.status (lookup id w).

(** The officer work queue: status pending or in_progress. *)
Definition assignable (g : Grievance.t) : Prop :=
  Grievance.status g = "pending" \/ Grievance.status g = "in_progress".

(** [Selected P l s]: [s] holds exactly the elements of [l] that satisfy
    [P], each as often as in [l] and in the order of [l]. *)
Inductive Selected {A : Type} (P : A -> Prop) : list A -> list A -> Prop :=
| Selected_nil : Selected P [] []
| Selected_keep x l s : P x -> Selected P l s -> Selected P (x :: l) (x :: s)
| Selected_drop x l s : ~ P x -> Selected P l s -> Selected P (x :: l) s.



Definition isVerification (type status : string) (body : object) : bool :=
  strictEq (get "verificationType" body) type
  && strictEq (get "status" body) status.






(** The status that a verification of the given type and outcome gives
    its grievance. *)
Definition verdict (type status current : string) : string :=
  if String.eqb type "verify" && String.eqb status "verified" then "resolved"
  else if String.eqb type "dispute" && String.eqb status "disputed"
       then "in_progress" else current.

(** The [updates] object of the status handler, before the resolution
    stamps. *)
Definition suppliedUpdates (body : StatusBody) : Grievance.updates :=
  Grievance.mkUpdates
    (if truthyString (resolutionNotes body) then resolutionNotes body
     else None)
    (if truthyArray (resolutionEvidence body) then resolutionEvidence body
     else None)
    None None None.

Definition isOfficer (u : User.t) : bool :=
  String.eqb (User.username u) "panchayat-officer".

(** The id under which an acceptance is recorded: the officer on file, or
    the one the handler creates. *)
Definition officerId (host : Host) (w : World) : string :=
  match find isOfficer (users w) with
  | Some officer => User.id officer
  | None => uuid host (uuidsDrawn w)
  end.

(** The object that POST /api/grievances hands to the validator. *)
Definition parsedBody (body : object) : object :=
  set "email" (or (get "email" body) VNull)
      (rest_without ["fullName"; "mobileNumber"; "email"] body).

(** A JSON number that is a positive integer. *)
Definition isPositiveInteger (v : value) : bool :=
  match v with
  | VNum q => ((Qnum q mod Zpos (Qden q) =? 0) && (0 <? Qnum q))%Z
  | _ => false
  end.





(** The fields of a grievance that the server assigns. *)
Definition serverAssigned : list string :=
  [ "id"; "grievanceNumber"; "status"; "userId"; "assignedTo"; "resolvedAt";
    "verificationDeadline"; "createdAt"; "updatedAt" ].

(** Section 8 on accept, as worded: a timeline that is not a positive
    integer is answered 400 and nothing is called on the gateway. *)
Definition acceptRejectsNonPositive (host : Host) (id : string)
  (body : object) (w : World) : Prop :=
  isPositiveInteger (get "resolutionTimeline" body) = false ->
  statusCode (fst (postGrievanceAccept host id body w)) = 400%nat
  /\ snd (postGrievanceAccept host id body w) = w.



(** Section 4.2 on updateStatus, as worded: a requested status other than
    resolved becomes the stored status. *)
Definition writesThrough (host : Host) (id : string) (body : StatusBody)
  (w : World) : Prop :=
  forall s, status body = Some s -> s <> "resolved" ->
  forall g, lookup id w = Some g ->
  statusOf id (snd (patchGrievanceStatus host id body w)) = Some s.

End Lifecycle.

(* ===================================================================== *)
(** ** Sample data                                                        *)
(* ===================================================================== *)

Module Sample.

Import Routes Lifecycle.

(** A host whose clock advances by one millisecond per reading, in a zone
    five and a half hours ahead of UTC all year.  It prints a number as its
    integer part, which is all that the samples need. *)
Definition host : Host :=
  mkHost (fun n => (1700000000000 + Z.of_nat n)%Z)
         (fun _ _ => 19800000%Z)
         (fun n => ("id-" ++ String (ascii_of_nat (65 + n)) EmptyString)%string)
         (fun q => NilZero.string_of_int
                     (Z.to_int (Qnum q / Zpos (Qden q)))).


Definition complaint : object :=
  [ ("title", VStr "Broken hand pump");
    ("category", VStr "Water Supply");
    ("description",
       VStr "The hand pump next to the primary school has given no water since the monsoon.");
    ("villageName", VStr "Rampur");
    ("fullName", VStr "A B");
    ("mobileNumber", VStr "+911234567890") ].

(** The world right after the complaint is filed, and the id it got. *)
Definition filed : World :=
  Eval vm_compute in snd (postGrievances host complaint emptyWorld).
Definition filedId : string := "id-B".

(** The record of the complaint in a world. *)
Definition blank : Grievance.t :=
  Grievance.mk EmptyString EmptyString EmptyString EmptyString EmptyString
    EmptyString EmptyString EmptyString EmptyString None None None None None
    None None None None None None None 0%Z 0%Z.

Definition recordIn (w : World) : Grievance.t :=
  match lookup filedId w with Some g => g | None => blank end.

Definition acceptBody : object := [("resolutionTimeline", VNum 7)].

(** The world after the officer has accepted the complaint. *)
Definition accepted : World :=
  Eval vm_compute in snd (postGrievanceAccept host filedId acceptBody filed).


Definition resolveBody : StatusBody :=
  mkStatusBody (Some "resolved") (Some "Pump replaced") None.

(** The world after the officer has reported the complaint resolved. *)
Definition awaiting : World :=
  Eval vm_compute in
    snd (patchGrievanceStatus host filedId resolveBody accepted).

Definition verifyBody : object :=
  [ ("grievanceId", VStr filedId);
    ("verificationType", VStr "verify");
    ("status", VStr "verified") ].



Definition withStatus : object := set "status" (VStr "resolved") complaint.

End Sample.

(* ===================================================================== *)
(** ** What a validator lets through, as a test on the data              *)
(* ===================================================================== *)

Module Accepts.

Definition isString (v : value) : bool :=
  match v with VStr _ => true | _ => false end.

Definition isNumber (v : value) : bool :=
  match v with VNum _ => true | _ => false end.

Definition isBoolean (v : value) : bool :=
  match v with VBool _ => true | _ => false end.

Definition minLength (n : nat) (v : value) : bool :=
  match v with VStr s => (n <=? String.length s)%nat | _ => false end.

Definition oneOf (options : list string) (v : value) : bool :=
  match v with VStr s => mem s options | _ => false end.

Definition never (v : value) : bool := false.

Definition isArray (v : value) : bool :=
  match v with VArr _ => true | _ => false end.

(** A whole number within the range of a 32-bit integer. *)
Definition isInt32 (v : value) : bool :=
  match v with
  | VNum q =>
      Qle_bool (inject_Z INT32_MIN) q && Qle_bool q (inject_Z INT32_MAX)
      && isInteger q
  | _ => false
  end.

Definition numberCheckOk (q : Q) (c : NumberCheck) : bool :=
  match c with
  | NumMin bound _ => Qle_bool (inject_Z bound) q
  | NumMax bound _ => Qle_bool q (inject_Z bound)
  | NumInt => isInteger q
  end.

Definition isNumberWith (checks : list NumberCheck) (v : value) : bool :=
  match v with VNum q => forallb (numberCheckOk q) checks | _ => false end.

Definition arrayOf (p : value -> bool) (v : value) : bool :=
  match v with VArr xs => forallb p xs | _ => false end.

Definition optional (p : value -> bool) (v : value) : bool :=
  match v with VUndefined => true | _ => p v end.

Definition nullable (p : value -> bool) (v : value) : bool :=
  match v with VNull => true | _ => p v end.

(** The data a zod type raises no issue on. *)
Fixpoint accepts (t : ZodType) : value -> bool :=
  match t with
  | ZString None => isString
  | ZString (Some (n, _)) => minLength n
  | ZCoerceString => fun _ => true
  | ZNumber checks => isNumberWith checks
  | ZBoolean => isBoolean
  | ZDate => never
  | ZEnum options => oneOf options
  | ZArray elem => arrayOf (accepts elem)
  | ZOptional inner => optional (accepts inner)
  | ZNullable inner => nullable (accepts inner)
  end.

Definition acceptsObject (shape : ZodObject) (o : object) : bool :=
  forallb (fun kt => accepts (snd kt) (get (fst kt) o)) shape.

(** The bodies that each creation validator of [shared/schema.ts] lets
    through, key by key. *)
Definition grievanceInputOk (o : object) : bool :=
  minLength 10 (get "title" o)
  && oneOf categories (get "category" o)
  && minLength 50 (get "description" o)
  && isString (get "villageName" o)
  && optional isString (get "priority" o)
  && optional (nullable isArray) (get "evidenceFiles" o)
  && optional (nullable isString) (get "voiceRecordingUrl" o)
  && optional (nullable isString) (get "voiceTranscription" o)
  && optional (nullable isInt32) (get "resolutionTimeline" o)
  && optional (nullable never) (get "dueDate" o)
  && optional (nullable isString) (get "resolutionNotes" o)
  && optional (nullable isArray) (get "resolutionEvidence" o).

Definition verificationInputOk (o : object) : bool :=
  isString (get "grievanceId" o)
  && oneOf ["verify"; "dispute"] (get "verificationType" o)
  && oneOf ["verified"; "disputed"] (get "status" o)
  && optional (nullable isString) (get "comments" o)
  && optional (nullable isArray) (get "evidenceFiles" o).

Definition userInputOk (o : object) : bool :=
  isString (get "username" o)
  && isString (get "password" o)
  && isString (get "fullName" o)
  && optional isString (get "role" o)
  && isString (get "mobileNumber" o)
  && optional (nullable isString) (get "email" o)
  && optional (nullable isString) (get "villageName" o).

Definition blockchainRecordInputOk (o : object) : bool :=
  isString (get "grievanceId" o)
  && isString (get "transactionHash" o)
  && optional (nullable isString) (get "blockNumber" o)
  && isString (get "eventType" o)
  && isString (get "eventData" o).

End Accepts.

(* ===================================================================== *)
(** ** The server as a whole                                              *)
(* ===================================================================== *)

Module Server.

Import Routes Lifecycle Accepts.

(** The requests that the modelled handlers answer. *)
Inductive Request : Type :=
| GetGrievances
| GetGrievancesAssigned
| GetGrievanceById (id : string)
| PostGrievances (body : object)
| PostGrievanceAccept (id : string) (body : object)
| PatchGrievanceStatus (id : string) (body : StatusBody)
| PostVerifications (body : object)
| GetVerifications (grievanceId : string).

Definition handle (host : Host) (r : Request) : M Response :=
  match r with
  | GetGrievances => getGrievances
  | GetGrievancesAssigned => getGrievancesAssigned
  | GetGrievanceById id => getGrievanceById id
  | PostGrievances body => postGrievances host body
  | PostGrievanceAccept id body => postGrievanceAccept host id body
  | PatchGrievanceStatus id body => patchGrievanceStatus host id body
  | PostVerifications body => postVerifications host body
  | GetVerifications grievanceId => getVerifications grievanceId
  end.

(** The world after a sequence of requests, served one after another. *)
Fixpoint serve (host : Host) (rs : list Request) (w : World) : World :=
  match rs with
  | [] => w
  | r :: rest => serve host rest (snd (handle host r w))
  end.

Definition isRead (r : Request) : bool :=
  match r with
  | GetGrievances | GetGrievancesAssigned | GetGrievanceById _
  | GetVerifications _ => true
  | _ => false
  end.

(** What the citizen filed: the part of a grievance that creation fixes. *)
Definition filedPart (g : Grievance.t) :=
  (Grievance.id g, Grievance.grievanceNumber g, Grievance.userId g,
   Grievance.title g, Grievance.category g, Grievance.description g,
   Grievance.villageName g, Grievance.priority g, Grievance.evidenceFiles g,
   Grievance.voiceRecordingUrl g, Grievance.voiceTranscription g,
   Grievance.createdAt g).

Definition extendsList {A : Type} (l l' : list A) : Prop :=
  exists more, l' = l ++ more.

(** [w'] keeps every row of [w] in place: users and verifications as they
    were, grievances with what was filed, new rows only at the end. *)
Definition keepsRows (w w' : World) : Prop :=
  extendsList (users w) (users w')
  /\ extendsList (verifications w) (verifications w')
  /\ extendsList (map filedPart (grievances w)) (map filedPart (grievances w'))
  /\ extendsList (calls w) (calls w').

Definition isVerifier (u : User.t) : bool :=
  String.eqb (User.username u) "community-verifier".

(** The id under which a verification is recorded: the verifier on file,
    or the one the handler creates. *)
Definition verifierId (host : Host) (w : World) : string :=
  match find isVerifier (users w) with
  | Some verifier => User.id verifier
  | None => uuid host (uuidsDrawn w)
  end.

(** The account that accept creates when there is no officer. *)
Definition newOfficer (host : Host) (w : World) : User.t :=
  User.mk (uuid host (uuidsDrawn w)) "panchayat-officer" "temp"
          "Panchayat Officer" "official" "+919999999999"
          (Some "officer@panchayat.gov.in") (Some "Demo Village")
          (clock host (clockReads w)).

(** The account that a verification creates when there is no verifier. *)
Definition newVerifier (host : Host) (w : World) : User.t :=
  User.mk (uuid host (uuidsDrawn w)) "community-verifier" "temp"
          "Community Verifier" "citizen" "+919888888888"
          (Some "verifier@community.local") (Some "Demo Village")
          (clock host (clockReads w)).

(** Every record with the id is changed, the others stay. *)
Definition rewriteAt (id : string) (change : Grievance.t -> Grievance.t)
  (gs : list Grievance.t) : list Grievance.t :=
  map (fun g => if Storage.hasId id g then change g else g) gs.

(** The status that PATCH /api/grievances/:id/status hands to the gateway
    for a requested one. *)
Definition storedStatus (requested : string) : string :=
  if String.eqb requested "resolved" then "pending_verification"
  else requested.

(** The work queue that GET /api/grievances/assigned answers with. *)
Definition queue (w : World) : list Grievance.t :=
  match body (fst (getGrievancesAssigned w)) with
  | JGrievances gs => gs
  | _ => []
  end.

(** The calls that a request makes on the gateway, in order. *)
Definition gatewayCalls (host : Host) (req : Request) (w : World)
  : list Call :=
  match req with
  | GetGrievances => [CallGetAllGrievances]
  | GetGrievancesAssigned => [CallGetAllGrievances]
  | GetGrievanceById id => [CallGetGrievance id]
  | PostGrievances body =>
      if grievanceInputOk body
         && truthy (get "fullName" body) && truthy (get "mobileNumber" body)
      then [CallCreateGrievance
              (strip (toStringOn host) insertGrievanceSchema
                     (parsedBody body))
              "temp-user-id" (get "fullName" body) (get "mobileNumber" body)]
      else []
  | PostGrievanceAccept id body =>
      let t := get "resolutionTimeline" body in
      if truthy t && String.eqb (typeof t) "number"
      then CallGetUserByUsername "panchayat-officer"
           :: match find isOfficer (users w) with
              | Some _ => []
              | None => [CallCreateUser "panchayat-officer"]
              end
           ++ [CallAcceptGrievance id]
      else []
  | PatchGrievanceStatus id body =>
      match status body with
      | Some s =>
          if truthy (VStr s)
          then [CallUpdateGrievanceStatus id (storedStatus s)] else []
      | None => []
      end
  | PostVerifications body =>
      if verificationInputOk body
      then CallGetUserByUsername "community-verifier"
           :: match find isVerifier (users w) with
              | Some _ => []
              | None => [CallCreateUser "community-verifier"]
              end
           ++ CallCreateVerification (asString (get "grievanceId" body))
              :: (if isVerification "verify" "verified" body
                  then [CallUpdateGrievanceStatus
                          (asString (get "grievanceId" body)) "resolved"]
                  else if isVerification "dispute" "disputed" body
                       then [CallUpdateGrievanceStatus
                               (asString (get "grievanceId" body))
                               "in_progress"]
                       else [])
      else []
  | GetVerifications grievanceId =>
      [CallGetVerificationsByGrievance grievanceId]
  end.

(** The keys of its body that POST /api/grievances reads. *)
Definition creationKeys : list string :=
  [ "title"; "category"; "description"; "villageName"; "priority";
    "evidenceFiles"; "voiceRecordingUrl"; "voiceTranscription";
    "resolutionTimeline"; "dueDate"; "resolutionNotes"; "resolutionEvidence";
    "fullName"; "mobileNumber" ].

End Server.

(* ===================================================================== *)
(** ** Facts about objects, the validators and the gateway                *)
(* ===================================================================== *)

Module Facts.

Import Routes Lifecycle.

Lemma get_set_other (k k' : string) (v : value) (o : object) :
  k <> k' -> get k (set k' v o) = get k o.
Proof.
  intros Hne. induction o as [|[k0 v0] o IH]; simpl.
  - apply String.eqb_neq in Hne. now rewrite Hne.
  - destruct (String.eqb k' k0) eqn:E; simpl.
    + apply String.eqb_eq in E. subst k0.
      apply String.eqb_neq in Hne. now rewrite Hne.
    + now rewrite IH.
Qed.

Lemma has_set_other (k k' : string) (v : value) (o : object) :
  k <> k' -> has k (set k' v o) = has k o.
Proof.
  intros Hne. induction o as [|[k0 v0] o IH]; simpl.
  - apply String.eqb_neq in Hne. now rewrite Hne.
  - destruct (String.eqb k' k0) eqn:E; simpl.
    + reflexivity.
    + now rewrite IH.
Qed.

Lemma get_rest_without (k : string) (ks : list string) (o : object) :
  mem k ks = false -> get k (rest_without ks o) = get k o.
Proof.
  intros Hk. induction o as [|[k0 v0] o IH]; simpl; [reflexivity|].
  destruct (String.eqb k k0) eqn:E.
  - apply String.eqb_eq in E. subst k0. rewrite Hk. simpl.
    now rewrite String.eqb_refl.
  - destruct (mem k0 ks); simpl; [exact IH|]. now rewrite E.
Qed.

Lemma has_rest_without (k : string) (ks : list string) (o : object) :
  mem k ks = false -> has k (rest_without ks o) = has k o.
Proof.
  intros Hk. induction o as [|[k0 v0] o IH]; simpl; [reflexivity|].
  destruct (String.eqb k k0) eqn:E.
  - apply String.eqb_eq in E. subst k0. rewrite Hk. simpl.
    now rewrite String.eqb_refl.
  - destruct (mem k0 ks); simpl; [exact IH|]. now rewrite E, IH.
Qed.

Lemma has_false_get (k : string) (o : object) :
  has k o = false -> get k o = VUndefined.
Proof.
  induction o as [|[k0 v0] o IH]; simpl; [reflexivity|].
  destruct (String.eqb k k0); simpl; [discriminate | exact IH].
Qed.

Lemma strip_out (toStr : value -> string) (shape : ZodObject) (k : string)
  (o : object) :
  ~ In k (keys shape) ->
  get k (strip toStr shape o) = VUndefined
  /\ has k (strip toStr shape o) = false.
Proof.
  unfold strip, keys. induction shape as [|[k0 t0] shape IH]; simpl.
  - now split.
  - intros Hn.
    assert (Hne : String.eqb k k0 = false).
    { apply String.eqb_neq. intros ->. apply Hn. now left. }
    destruct (has k0 o || negb (isUndefined (output toStr t0 (get k0 o))));
      simpl; rewrite ?Hne; simpl; apply IH; tauto.
Qed.

(** Parsing keeps the properties of the shape, as their types give them
    back, and drops the others. *)
Lemma get_strip (toStr : value -> string) (shape : ZodObject) (k : string)
  (o : object) :
  NoDup (keys shape) ->
  get k (strip toStr shape o)
  = match typeOf k shape with
    | Some t => output toStr t (get k o)
    | None => VUndefined
    end.
Proof.
  unfold strip, keys, typeOf. induction shape as [|[k0 t0] shape IH]; simpl.
  - reflexivity.
  - intros Hnd. inversion Hnd as [|? ? Hnot Hnd']; subst.
    destruct (String.eqb k k0) eqn:E; simpl.
    + apply String.eqb_eq in E. subst k0.
      destruct (has k o) eqn:Hhas; simpl.
      * now rewrite String.eqb_refl.
      * destruct (isUndefined (output toStr t0 (get k o))) eqn:Hu; simpl.
        -- destruct (strip_out toStr shape k o Hnot) as [Hg _].
           unfold strip in Hg. rewrite Hg.
           now destruct (output toStr t0 (get k o)).
        -- now rewrite String.eqb_refl.
    + destruct (has k0 o || negb (isUndefined (output toStr t0 (get k0 o))));
        simpl; rewrite ?E; now apply IH.
Qed.

Lemma get_strip_at (toStr : value -> string) (shape : ZodObject) (k : string)
  (o : object) (t : ZodType) :
  NoDup (keys shape) ->
  typeOf k shape = Some t ->
  get k (strip toStr shape o) = output toStr t (get k o).
Proof. intros Hnd Ht. now rewrite get_strip, Ht. Qed.

Lemma NoDup_grievance_keys : NoDup (keys insertGrievanceSchema).
Proof.
  simpl. repeat (constructor; [simpl; intuition discriminate|]). constructor.
Qed.

Lemma NoDup_verification_keys : NoDup (keys insertVerificationSchema).
Proof.
  simpl. repeat (constructor; [simpl; intuition discriminate|]). constructor.
Qed.

Lemma issues_nil (shape : ZodObject) (o : object) :
  issues shape o = [] <->
  forall k t, In (k, t) shape -> check t [PKey k] (get k o) = [].
Proof.
  unfold issues. induction shape as [|[k0 t0] shape IH]; simpl.
  - split; [intros _ k t []|reflexivity].
  - split.
    + intros H k t [Heq|Hin].
      * inversion Heq; subst. now apply app_eq_nil in H.
      * apply app_eq_nil in H. apply IH; tauto.
    + intros H. rewrite (H k0 t0) by now left. simpl.
      apply IH. intros k t Hin. apply H. now right.
Qed.


Lemma parse_Ok (toStr : value -> string) (shape : ZodObject) (o : object) :
  issues shape o = [] -> parse toStr shape o = Ok (strip toStr shape o).
Proof. unfold parse. now intros ->. Qed.

Lemma parse_ZodError (toStr : value -> string) (shape : ZodObject)
  (o : object) (i : ZodIssue) :
  In i (issues shape o) -> parse toStr shape o = ZodError (issues shape o).
Proof.
  unfold parse. destruct (issues shape o); [intros []|reflexivity].
Qed.

Lemma flat_map_ext_in {A B : Type} (f g : A -> list B) (l : list A) :
  (forall x, In x l -> f x = g x) -> flat_map f l = flat_map g l.
Proof.
  intros H. rewrite !flat_map_concat_map. f_equal. now apply map_ext_in.
Qed.

(** Two objects that agree on the keys of a shape parse alike. *)
Lemma parse_ext (toStr : value -> string) (shape : ZodObject)
  (o1 o2 : object) :
  (forall k, In k (keys shape) -> get k o1 = get k o2 /\ has k o1 = has k o2) ->
  parse toStr shape o1 = parse toStr shape o2.
Proof.
  intros H.
  assert (Hi : issues shape o1 = issues shape o2).
  { unfold issues. apply flat_map_ext_in. intros [k t] Hin. simpl.
    destruct (H k) as [-> _]; [|reflexivity].
    unfold keys. apply in_map_iff. now exists (k, t). }
  assert (Hs : strip toStr shape o1 = strip toStr shape o2).
  { unfold strip. apply flat_map_ext_in. intros [k t] Hin. simpl.
    destruct (H k) as [-> ->]; [|reflexivity].
    unfold keys. apply in_map_iff. now exists (k, t). }
  unfold parse. now rewrite Hi, Hs.
Qed.

(** An update that keeps the id of every record rewrites what an id
    resolves to, and leaves the other ids alone. *)
Lemma find_update (change : Grievance.t -> Grievance.t) (id id' : string)
  (gs : list Grievance.t) :
  (forall g, Grievance.id (change g) = Grievance.id g) ->
  find (Storage.hasId id)
       (map (fun g => if Storage.hasId id' g then change g else g) gs)
  = if String.eqb id id'
    then option_map change (find (Storage.hasId id) gs)
    else find (Storage.hasId id) gs.
Proof.
  intros Hid. unfold Storage.hasId.
  induction gs as [|g gs IH]; simpl.
  - now destruct (String.eqb id id').
  - destruct (String.eqb (Grievance.id g) id') eqn:E'.
    + rewrite Hid. destruct (String.eqb (Grievance.id g) id) eqn:E.
      * apply String.eqb_eq in E, E'. subst.
        now rewrite String.eqb_refl.
      * exact IH.
    + destruct (String.eqb (Grievance.id g) id) eqn:E.
      * apply String.eqb_eq in E. subst id.
        now rewrite E'.
      * exact IH.
Qed.

Lemma filter_Selected {A : Type} (p : A -> bool) (l : list A) :
  Selected (fun x => p x = true) l (filter p l).
Proof.
  induction l as [|x l IH]; simpl.
  - constructor.
  - destruct (p x) eqn:E.
    + now constructor.
    + constructor; [congruence | exact IH].
Qed.

(** Running a handler: the binds and the gateway calls unfold to plain
    world passing. *)
Ltac run_handler :=
  unfold Storage.updateGrievanceStatus, Storage.acceptGrievance,
    Storage.getUserByUsername, Storage.createUser,
    Storage.createVerification, Storage.createGrievance,
    Storage.getAllGrievances, Storage.getGrievance;
  unfold Storage.log, Storage.readWorld, Storage.putGrievances,
    Storage.putUsers, Storage.putVerifications, Storage.randomUuid,
    Storage.now, Clock.newDate, json, status_json;
  unfold bind, ret;
  simpl.

End Facts.

Import Routes Lifecycle Facts.

(* ===================================================================== *)
(** ** The work queue                                                     *)
(* ===================================================================== *)

Lemma Selected_iff {A : Type} (P Q : A -> Prop) (l s : list A) :
  (forall x, P x <-> Q x) -> Selected P l s -> Selected Q l s.
Proof.
  intros H Hs. induction Hs.
  - constructor.
  - constructor; [now apply H | assumption].
  - apply Selected_drop; [now rewrite <- H | assumption].
Qed.

Lemma assignable_filter (g : Grievance.t) :
  String.eqb (Grievance.status g) "pending"
  || String.eqb (Grievance.status g) "in_progress" = true
  <-> assignable g.
Proof.
  unfold assignable. rewrite orb_true_iff, !String.eqb_eq. reflexivity.
Qed.

(** C7. GET /api/grievances/assigned answers 200 with exactly the
    grievances of the full list (the one GET /api/grievances answers) whose
    status is pending or in_progress, each as often as in the full list
    and in the order of the full list. *)
Theorem assigned_selects_pending_or_in_progress (w : World) :
  exists all queue,
    fst (getGrievances w) = mkResponse 200 (JGrievances all)
    /\ fst (getGrievancesAssigned w) = mkResponse 200 (JGrievances queue)
    /\ (forall g, In g queue <-> In g all /\ assignable g)
    /\ Selected assignable all queue.
Proof.
  eexists. eexists. split; [reflexivity|]. split; [reflexivity|].
  simpl. split.
  - intros g. rewrite filter_In, assignable_filter. reflexivity.
  - eapply Selected_iff; [|apply filter_Selected].
    intros g. simpl. apply assignable_filter.
Qed.

(* ===================================================================== *)
(** ** Recording a verification                                           *)
(* ===================================================================== *)

Lemma with_status_same (g : Grievance.t) :
  Grievance.with_status (Grievance.status g) g = g.
Proof. now destruct g. Qed.

Lemma postVerifications_valid (host : Host) (body : object) (w : World)
  (gid type status : string) :
  issues insertVerificationSchema body = [] ->
  get "grievanceId" body = VStr gid ->
  get "verificationType" body = VStr type ->
  get "status" body = VStr status ->
  exists v,
    fst (postVerifications host body w) = mkResponse 201 (JVerification v)
    /\ verifications (snd (postVerifications host body w))
       = verifications w ++ [v]
    /\ Verification.grievanceId v = gid
    /\ Verification.verificationType v = type
    /\ Verification.status v = status
    /\ forall id,
         lookup id (snd (postVerifications host body w))
         = if String.eqb id gid
           then option_map
                  (fun g => Grievance.with_status
                              (verdict type status (Grievance.status g)) g)
                  (lookup id w)
           else lookup id w.
Proof.
  intros Hok Hg Ht Hs.
  unfold postVerifications. rewrite (parse_Ok _ _ _ Hok).
  pose proof (get_strip_at (toStringOn host) insertVerificationSchema "grievanceId" body
                _ NoDup_verification_keys eq_refl) as Dg.
  pose proof (get_strip_at (toStringOn host) insertVerificationSchema "verificationType" body
                _ NoDup_verification_keys eq_refl) as Dt.
  pose proof (get_strip_at (toStringOn host) insertVerificationSchema "status" body
                _ NoDup_verification_keys eq_refl) as Ds.
  cbn [output] in Dg, Dt, Ds.
  rewrite Hg in Dg. rewrite Ht in Dt. rewrite Hs in Ds.
  generalize dependent (strip (toStringOn host) insertVerificationSchema body).
  intros data Dg Dt Ds.
  unfold bind, Storage.getUserByUsername, Storage.createVerification,
    Storage.createUser, Storage.updateGrievanceStatus, bind.
  rewrite Dg, Dt, Ds. simpl.
  assert (Hsame : forall o : option Grievance.t,
            o = option_map
                  (fun g => Grievance.with_status (Grievance.status g) g) o).
  { intros [g|]; simpl; [|reflexivity]. now rewrite with_status_same. }
  destruct (find _ (users w)) as [verifier|]; simpl;
    unfold verdict;
    destruct (String.eqb type "verify" && String.eqb status "verified");
    [| destruct (String.eqb type "dispute" && String.eqb status "disputed")
     | | destruct (String.eqb type "dispute" && String.eqb status "disputed")];
    simpl; eexists; (split; [reflexivity|]); (split; [reflexivity|]);
    (split; [reflexivity|]); (split; [reflexivity|]); (split; [reflexivity|]);
    intros id; unfold lookup; simpl;
    try (rewrite find_update by reflexivity; reflexivity);
    destruct (String.eqb id gid); auto.
Qed.






(* ===================================================================== *)
(** ** Updating the status                                                *)
(* ===================================================================== *)

Lemma truthy_nonempty (s : string) :
  s <> EmptyString -> truthy (VStr s) = true.
Proof. destruct s; [congruence | reflexivity]. Qed.

Lemma patch_resolved (host : Host) (id : string) (body : StatusBody)
  (w : World) :
  status body = Some "resolved" ->
  let u := suppliedUpdates body in
  let change :=
    fun g =>
      Grievance.merge
        (Grievance.mkUpdates (Grievance.u_resolutionNotes u)
           (Grievance.u_resolutionEvidence u)
           (Some (clock host (clockReads w)))
           (Some (Clock.setDate_getDate_plus host 7
                    (clock host (S (clockReads w)))))
           (Some "pending_verification"))
        (Grievance.with_status "pending_verification" g) in
  fst (patchGrievanceStatus host id body w)
  = match lookup id w with
    | Some g => mkResponse 200 (JGrievance (change g))
    | None => mkResponse 404 (JError "Grievance not found")
    end
  /\ forall id',
       lookup id' (snd (patchGrievanceStatus host id body w))
       = if String.eqb id' id then option_map change (lookup id' w)
         else lookup id' w.
Proof.
  intros Hs u change. subst u change.
  unfold patchGrievanceStatus, suppliedUpdates. rewrite Hs.
  unfold lookup.
  destruct (truthyString (resolutionNotes body));
    destruct (truthyArray (resolutionEvidence body)); run_handler;
    (split;
     [ destruct (find (Storage.hasId id) (grievances w)); reflexivity
     | intros id';
       destruct (find (Storage.hasId id) (grievances w)); simpl;
       apply find_update; reflexivity ]).
Qed.

Lemma patch_other (host : Host) (id : string) (body : StatusBody)
  (w : World) (s : string) :
  status body = Some s -> s <> EmptyString -> s <> "resolved" ->
  let change :=
    fun g => Grievance.merge (suppliedUpdates body)
               (Grievance.with_status s g) in
  fst (patchGrievanceStatus host id body w)
  = match lookup id w with
    | Some g => mkResponse 200 (JGrievance (change g))
    | None => mkResponse 404 (JError "Grievance not found")
    end
  /\ forall id',
       lookup id' (snd (patchGrievanceStatus host id body w))
       = if String.eqb id' id then option_map change (lookup id' w)
         else lookup id' w.
Proof.
  intros Hs Hne Hnr change. subst change.
  unfold patchGrievanceStatus, suppliedUpdates. rewrite Hs.
  rewrite (truthy_nonempty s Hne). apply String.eqb_neq in Hnr. rewrite Hnr.
  unfold lookup.
  destruct (truthyString (resolutionNotes body));
    destruct (truthyArray (resolutionEvidence body)); run_handler;
    (split;
     [ destruct (find (Storage.hasId id) (grievances w)); reflexivity
     | intros id';
       destruct (find (Storage.hasId id) (grievances w)); simpl;
       apply find_update; reflexivity ]).
Qed.

Lemma patch_rejected (host : Host) (id : string) (body : StatusBody)
  (w : World) :
  status body = None \/ status body = Some EmptyString ->
  patchGrievanceStatus host id body w
  = (mkResponse 400 (JError "Status is required"), w).
Proof.
  unfold patchGrievanceStatus. intros [-> | ->]; reflexivity.
Qed.




(** C8, counterexample. An empty requested status is a status other than
    resolved, and the handler answers 400 and stores nothing. *)
Lemma empty_status_counterexample :
  ~ writesThrough Sample.host Sample.filedId
      (mkStatusBody (Some EmptyString) None None) Sample.filed.
Proof.
  intros H.
  specialize (H EmptyString eq_refl).
  assert (Hne : EmptyString <> "resolved") by discriminate.
  specialize (H Hne (Sample.recordIn Sample.filed) eq_refl).
  vm_compute in H. discriminate H.
Qed.

(** C8, amended. For an existing grievance and every non-empty requested
    status other than resolved, the status update answers 200 and the
    stored status is the requested string, whatever the current status. *)
Theorem updateStatus_writes_through (host : Host) (id : string)
  (body : StatusBody) (w : World) (s : string) (g : Grievance.t) :
  status body = Some s ->
  s <> EmptyString ->
  s <> "resolved" ->
  lookup id w = Some g ->
  let r := patchGrievanceStatus host id body w in
  exists g',
    fst r = mkResponse 200 (JGrievance g')
    /\ lookup id (snd r) = Some g'
    /\ Grievance.status g' = s.
Proof.
  intros Hs Hne Hnr Hg r.
  destruct (patch_other host id body w s Hs Hne Hnr) as [Hr Hl].
  subst r. rewrite Hr, (Hl id), String.eqb_refl, Hg. simpl.
  eexists. split; [reflexivity|]. split; reflexivity.
Qed.

Lemma updateStatus_writes_through_witness :
  exists g',
    lookup Sample.filedId
      (snd (patchGrievanceStatus Sample.host Sample.filedId
              (mkStatusBody (Some "archived") None None) Sample.filed))
    = Some g'
    /\ Grievance.status g' = "archived".
Proof.
  assert (Hne : "archived" <> EmptyString) by discriminate.
  assert (Hnr : "archived" <> "resolved") by discriminate.
  destruct (updateStatus_writes_through Sample.host Sample.filedId
              (mkStatusBody (Some "archived") None None) Sample.filed
              "archived" (Sample.recordIn Sample.filed)
              eq_refl Hne Hnr eq_refl)
    as (g' & _ & Hl & Hs).
  exists g'. split; assumption.
Defined.

(* ===================================================================== *)
(** ** Accepting a grievance                                              *)
(* ===================================================================== *)

Lemma accept_rejected (host : Host) (id : string) (body : object) (w : World) :
  truthy (get "resolutionTimeline" body) = false
  \/ typeof (get "resolutionTimeline" body) <> "number" ->
  postGrievanceAccept host id body w
  = (mkResponse 400 (JError "Resolution timeline is required"), w).
Proof.
  intros H. unfold postGrievanceAccept.
  destruct H as [-> | H]; [reflexivity|].
  apply String.eqb_neq in H. rewrite H. now rewrite orb_true_r.
Qed.

Lemma accept_passed (host : Host) (id : string) (body : object) (w : World)
  (q : Q) :
  get "resolutionTimeline" body = VNum q ->
  Qnum q <> 0%Z ->
  let change :=
    fun g => Grievance.with_status "in_progress"
               (Grievance.with_assignment (officerId host w) q g) in
  fst (postGrievanceAccept host id body w)
  = match lookup id w with
    | Some g => mkResponse 200 (JGrievance (change g))
    | None => mkResponse 404 (JError "Grievance not found")
    end
  /\ (forall id',
        lookup id' (snd (postGrievanceAccept host id body w))
        = if String.eqb id' id then option_map change (lookup id' w)
          else lookup id' w)
  /\ In (CallAcceptGrievance id)
        (calls (snd (postGrievanceAccept host id body w))).
Proof.
  intros Ht Hq change. subst change.
  unfold postGrievanceAccept, officerId, lookup, isOfficer. rewrite Ht.
  apply Z.eqb_neq in Hq. simpl. rewrite Hq. simpl.
  run_handler.
  destruct (find _ (users w)) as [officer|]; simpl;
    (split;
     [ destruct (find (Storage.hasId id) (grievances w)); reflexivity
     | split;
       [ intros id';
         destruct (find (Storage.hasId id) (grievances w)); simpl;
         apply find_update; reflexivity
       | destruct (find (Storage.hasId id) (grievances w)); simpl;
         apply in_or_app; right; simpl; tauto ] ]).
Qed.

(** C4, counterexample. A timeline of minus five is not a positive
    integer, and the sample complaint is accepted with it. *)
Lemma negative_timeline_counterexample :
  ~ acceptRejectsNonPositive Sample.host Sample.filedId
      [("resolutionTimeline", VNum (-5 # 1))] Sample.filed.
Proof.
  intros H. destruct (H eq_refl) as [Hcode _].
  vm_compute in Hcode. discriminate Hcode.
Qed.

(** C4, amended. Accept answers 400, before any call on the gateway, when
    resolutionTimeline is falsy (missing, null, false, 0, the empty string)
    or is not of type number.  Every other number, negative and fractional
    ones included, passes the check and reaches the gateway: the answer is
    404 when the id resolves to no record, and otherwise 200 with the
    updated grievance, whose assignedTo is the officer, whose
    resolutionTimeline is the number supplied and whose status is
    in_progress. *)
Theorem accept_checks_presence_and_type (host : Host) (id : string)
  (body : object) (w : World) :
  let t := get "resolutionTimeline" body in
  let r := postGrievanceAccept host id body w in
  (truthy t = false \/ typeof t <> "number" ->
   r = (mkResponse 400 (JError "Resolution timeline is required"), w))
  /\ (forall q, t = VNum q -> Qnum q <> 0%Z ->
      In (CallAcceptGrievance id) (calls (snd r))
      /\ (lookup id w = None ->
          fst r = mkResponse 404 (JError "Grievance not found"))
      /\ (forall g, lookup id w = Some g ->
          exists g',
            fst r = mkResponse 200 (JGrievance g')
            /\ lookup id (snd r) = Some g'
            /\ Grievance.assignedTo g' = Some (officerId host w)
            /\ Grievance.resolutionTimeline g' = Some q
            /\ Grievance.status g' = "in_progress")).
Proof.
  intros t r. subst t r. split.
  - apply accept_rejected.
  - intros q Ht Hq.
    destruct (accept_passed host id body w q Ht Hq) as (Hr & Hl & Hc).
    split; [exact Hc|]. split.
    + intros Hnone. now rewrite Hr, Hnone.
    + intros g Hg. rewrite Hr, (Hl id), String.eqb_refl, Hg. simpl.
      eexists. repeat split.
Qed.

Lemma accept_checks_presence_and_type_witness :
  exists g',
    lookup Sample.filedId Sample.accepted = Some g'
    /\ Grievance.resolutionTimeline g' = Some 7%Q
    /\ Grievance.status g' = "in_progress".
Proof.
  assert (Hq : Qnum 7 <> 0%Z) by discriminate.
  destruct (proj2 (accept_checks_presence_and_type Sample.host
                     Sample.filedId Sample.acceptBody Sample.filed)
                  7%Q eq_refl Hq)
    as (_ & _ & Hfound).
  destruct (Hfound (Sample.recordIn Sample.filed) eq_refl)
    as (g' & _ & Hl & _ & Ht & Hs).
  exists g'. now repeat split.
Defined.

(* ===================================================================== *)
(** ** Creating a grievance                                               *)
(* ===================================================================== *)


Lemma schema_key_kept (k : string) :
  In k (keys insertGrievanceSchema) ->
  k <> "email" /\ mem k ["fullName"; "mobileNumber"; "email"] = false.
Proof.
  simpl. intros H.
  repeat (destruct H as [<- | H]; [split; [discriminate|reflexivity]|]).
  destruct H.
Qed.

Lemma get_parsedBody (k : string) (body : object) :
  In k (keys insertGrievanceSchema) ->
  get k (parsedBody body) = get k body.
Proof.
  intros Hk. destruct (schema_key_kept k Hk) as [Hne Hmem].
  unfold parsedBody. rewrite get_set_other by exact Hne.
  now apply get_rest_without.
Qed.

Lemma postGrievances_invalid (host : Host) (body : object) (w : World)
  (i : ZodIssue) :
  In i (issues insertGrievanceSchema (parsedBody body)) ->
  postGrievances host body w
  = (mkResponse 400
       (JValidationFailed "Validation failed"
          (issues insertGrievanceSchema (parsedBody body))), w).
Proof.
  intros Hi. unfold postGrievances. fold (parsedBody body).
  now rewrite (parse_ZodError _ _ _ i Hi).
Qed.

Lemma postGrievances_valid (host : Host) (body : object) (w : World) :
  issues insertGrievanceSchema (parsedBody body) = [] ->
  truthy (get "fullName" body) = true ->
  truthy (get "mobileNumber" body) = true ->
  exists g,
    fst (postGrievances host body w) = mkResponse 201 (JGrievance g)
    /\ grievances (snd (postGrievances host body w)) = grievances w ++ [g]
    /\ Grievance.status g = "pending"
    /\ Grievance.title g = asString (get "title" body)
    /\ Grievance.category g = asString (get "category" body)
    /\ Grievance.description g = asString (get "description" body).
Proof.
  intros Hok Hn Hm. unfold postGrievances. fold (parsedBody body).
  rewrite (parse_Ok _ _ _ Hok), Hn, Hm. simpl negb. cbv iota.
  pose proof (get_strip_at (toStringOn host) insertGrievanceSchema "title"
                (parsedBody body) _ NoDup_grievance_keys eq_refl) as Dt.
  pose proof (get_strip_at (toStringOn host) insertGrievanceSchema "category"
                (parsedBody body) _ NoDup_grievance_keys eq_refl)
    as Dc.
  pose proof (get_strip_at (toStringOn host) insertGrievanceSchema "description"
                (parsedBody body) _ NoDup_grievance_keys eq_refl)
    as Dd.
  cbn [output] in Dt, Dc, Dd.
  rewrite get_parsedBody in Dt, Dc, Dd by (simpl; tauto).
  generalize dependent (strip (toStringOn host) insertGrievanceSchema
                          (parsedBody body)).
  intros data Dt Dc Dd.
  run_handler. rewrite Dt, Dc, Dd.
  destruct (find _ (users w)) as [owner|]; simpl;
    eexists; repeat split.
Qed.

Lemma postGrievances_codes (host : Host) (body : object) (w : World) :
  statusCode (fst (postGrievances host body w)) = 201%nat ->
  issues insertGrievanceSchema (parsedBody body) = []
  /\ truthy (get "fullName" body) = true
  /\ truthy (get "mobileNumber" body) = true.
Proof.
  unfold postGrievances. fold (parsedBody body). unfold parse.
  destruct (issues insertGrievanceSchema (parsedBody body)) as [|i rest].
  - destruct (truthy (get "fullName" body));
      destruct (truthy (get "mobileNumber" body)); simpl;
      try discriminate. tauto.
  - simpl. discriminate.
Qed.









Lemma disjoint_from_schema (k k' : string) :
  In k serverAssigned -> In k' (keys insertGrievanceSchema) -> k' <> k.
Proof.
  intros Hk Hk'. simpl in Hk, Hk'.
  repeat (destruct Hk as [<- | Hk]; [
    repeat (destruct Hk' as [<- | Hk']; [discriminate|]); destruct Hk' |]).
  destruct Hk.
Qed.

Lemma serverAssigned_not_contact (k : string) :
  In k serverAssigned ->
  "fullName" <> k /\ "mobileNumber" <> k /\ "email" <> k.
Proof.
  simpl. intros H.
  repeat (destruct H as [<- | H]; [repeat split; discriminate|]).
  destruct H.
Qed.

Lemma rest_without_set (ks : list string) (k : string) (v : value)
  (o : object) (k' : string) :
  k' <> k ->
  get k' (rest_without ks (set k v o)) = get k' (rest_without ks o)
  /\ has k' (rest_without ks (set k v o)) = has k' (rest_without ks o).
Proof.
  intros Hne. destruct (mem k' ks) eqn:Hm.
  - assert (Hg : forall o', has k' (rest_without ks o') = false).
    { intros o'. induction o' as [|[k0 v0] o' IH]; simpl; [reflexivity|].
      destruct (mem k0 ks) eqn:E0; simpl; [exact IH|].
      destruct (String.eqb_spec k' k0) as [->|_]; [congruence|exact IH]. }
    split.
    + now rewrite !has_false_get by apply Hg.
    + now rewrite !Hg.
  - rewrite !get_rest_without, !has_rest_without by exact Hm.
    split; [now apply get_set_other | now apply has_set_other].
Qed.

Lemma postGrievances_call (host : Host) (body : object) (w : World) :
  issues insertGrievanceSchema (parsedBody body) = [] ->
  truthy (get "fullName" body) = true ->
  truthy (get "mobileNumber" body) = true ->
  calls (snd (postGrievances host body w))
  = calls w
    ++ [CallCreateGrievance
          (strip (toStringOn host) insertGrievanceSchema (parsedBody body))
          "temp-user-id" (get "fullName" body) (get "mobileNumber" body)].
Proof.
  intros Hok Hn Hm. unfold postGrievances. fold (parsedBody body).
  rewrite (parse_Ok _ _ _ Hok), Hn, Hm. simpl negb. cbv iota.
  generalize (strip (toStringOn host) insertGrievanceSchema (parsedBody body)).
  intros data. run_handler.
  now destruct (find _ (users w)).
Qed.

(** C9. A grievance that POST /api/grievances creates has status
    pending. What the handler hands to the gateway for it is the output of
    the creation validator, under the owner id that the handler fixes; the
    validator has none of the server-assigned fields among its keys, so
    that output has none of them, whatever the body holds under them. And
    a value that the client supplies for such a field changes nothing: the
    answer and the world are those of the same body without it. *)
Theorem creation_assigns_server_fields (host : Host) (body : object)
  (w : World) :
  let r := postGrievances host body w in
  (statusCode (fst r) = 201%nat ->
   exists g data,
     fst r = mkResponse 201 (JGrievance g)
     /\ grievances (snd r) = grievances w ++ [g]
     /\ Grievance.status g = "pending"
     /\ parse (toStringOn host) insertGrievanceSchema (parsedBody body)
        = Ok data
     /\ calls (snd r)
        = calls w
          ++ [CallCreateGrievance data "temp-user-id"
                (get "fullName" body) (get "mobileNumber" body)]
     /\ forall k, In k serverAssigned ->
          has k data = false /\ get k data = VUndefined)
  /\ (forall k, In k serverAssigned ->
      mem k (keys insertGrievanceSchema) = false /\ In k grievanceOmitted)
  /\ (forall k v, In k serverAssigned ->
      postGrievances host (set k v body) w = r).
Proof.
  intros r. subst r.
  assert (Hout : forall k, In k serverAssigned ->
            mem k (keys insertGrievanceSchema) = false
            /\ In k grievanceOmitted).
  { intros k Hk. simpl in Hk.
    repeat (destruct Hk as [<- | Hk];
            [split; [reflexivity | simpl; tauto]|]).
    destruct Hk. }
  split; [|split].
  - intros Hcode. destruct (postGrievances_codes host body w Hcode)
      as (Hok & Hn & Hm).
    destruct (postGrievances_valid host body w Hok Hn Hm)
      as (g & Hr & Hg & Hs & _).
    exists g.
    exists (strip (toStringOn host) insertGrievanceSchema (parsedBody body)).
    split; [exact Hr|]. split; [exact Hg|]. split; [exact Hs|].
    split; [now apply parse_Ok|].
    split; [now apply postGrievances_call|].
    intros k Hk. destruct (Hout k Hk) as [Hmem _].
    assert (Hnot : ~ In k (keys insertGrievanceSchema)).
    { intros Hin. unfold mem in Hmem.
      assert (Ht : existsb (String.eqb k) (keys insertGrievanceSchema) = true).
      { apply existsb_exists. exists k. split; [exact Hin|].
        apply String.eqb_refl. }
      congruence. }
    destruct (strip_out (toStringOn host) insertGrievanceSchema k
                (parsedBody body) Hnot) as [Hget Hhas].
    now split.
  - exact Hout.
  - intros k v Hk.
    destruct (serverAssigned_not_contact k Hk) as (Hf & Hm & He).
    unfold postGrievances.
    rewrite !(get_set_other _ k) by assumption.
    replace (parse (toStringOn host) insertGrievanceSchema
               (set "email" (or (get "email" body) VNull)
                  (rest_without ["fullName"; "mobileNumber"; "email"]
                     (set k v body))))
      with (parse (toStringOn host) insertGrievanceSchema
              (set "email" (or (get "email" body) VNull)
                 (rest_without ["fullName"; "mobileNumber"; "email"] body))).
    + reflexivity.
    + apply parse_ext. intros k' Hk'.
      destruct (schema_key_kept k' Hk') as [Hne _].
      rewrite !get_set_other, !has_set_other by exact Hne.
      destruct (rest_without_set ["fullName"; "mobileNumber"; "email"]
                  k v body k' (disjoint_from_schema k k' Hk Hk')) as [-> ->].
      now split.
Qed.

Lemma creation_assigns_server_fields_witness :
  postGrievances Sample.host Sample.withStatus emptyWorld
  = postGrievances Sample.host Sample.complaint emptyWorld
  /\ exists g data,
       fst (postGrievances Sample.host Sample.withStatus emptyWorld)
       = mkResponse 201 (JGrievance g)
       /\ Grievance.status g = "pending"
       /\ parse (toStringOn Sample.host) insertGrievanceSchema
            (parsedBody Sample.withStatus) = Ok data
       /\ has "status" data = false.
Proof.
  assert (Hk : In "status" serverAssigned) by (simpl; tauto).
  split.
  - exact (proj2 (proj2 (creation_assigns_server_fields Sample.host
                           Sample.complaint emptyWorld))
                 "status" (VStr "resolved") Hk).
  - destruct (proj1 (creation_assigns_server_fields Sample.host
                       Sample.withStatus emptyWorld) eq_refl)
      as (g & data & Hr & _ & Hs & Hp & _ & Hnone).
    exists g, data. split; [exact Hr|]. split; [exact Hs|].
    split; [exact Hp|]. exact (proj1 (Hnone "status" Hk)).
Defined.

(* ===================================================================== *)
(** ** The lifecycle as a whole                                           *)
(* ===================================================================== *)

Lemma string_checked (min : option (nat * string)) (p : list PathElem)
  (v : value) :
  check (ZString min) p v = [] -> exists s, v = VStr s.
Proof.
  destruct v; simpl; try discriminate. intros _. now eexists.
Qed.

Lemma enum_checked (options : list string) (p : list PathElem) (v : value) :
  check (ZEnum options) p v = [] -> exists s, v = VStr s.
Proof.
  destruct v; simpl; try discriminate. intros _. now eexists.
Qed.

Lemma verification_fields (body : object) :
  issues insertVerificationSchema body = [] ->
  exists gid type status,
    get "grievanceId" body = VStr gid
    /\ get "verificationType" body = VStr type
    /\ get "status" body = VStr status.
Proof.
  intros Hok. pose proof (proj1 (issues_nil _ _) Hok) as Hall.
  destruct (string_checked None [PKey "grievanceId"]
              (get "grievanceId" body)) as [gid Hg];
    [apply Hall; simpl; tauto|].
  destruct (enum_checked ["verify"; "dispute"] [PKey "verificationType"]
              (get "verificationType" body)) as [type Ht];
    [apply Hall; simpl; tauto|].
  destruct (enum_checked ["verified"; "disputed"] [PKey "status"]
              (get "status" body)) as [status Hs];
    [apply Hall; simpl; tauto|].
  now exists gid, type, status.
Qed.

Lemma postVerifications_invalid (host : Host) (body : object) (w : World)
  (i : ZodIssue) (rest : list ZodIssue) :
  issues insertVerificationSchema body = i :: rest ->
  postVerifications host body w
  = (mkResponse 400 (JValidationFailed "Validation failed" (i :: rest)), w).
Proof.
  intros H. unfold postVerifications, parse. now rewrite H.
Qed.





(* ===================================================================== *)
(** ** The validators, key by key                                         *)
(* ===================================================================== *)

Import Accepts Server.

Lemma each_accepts (elem : ZodType) (p : list PathElem) (xs : list value) :
  (forall q v, check elem q v = [] <-> accepts elem v = true) ->
  forall i,
    (fix each (i : nat) (xs : list value) : list ZodIssue :=
       match xs with
       | [] => []
       | x :: rest => check elem (p ++ [PIndex i]) x ++ each (S i) rest
       end) i xs = []
    <-> forallb (accepts elem) xs = true.
Proof.
  intros IH. induction xs as [|x xs IHxs]; intros i; simpl.
  - tauto.
  - rewrite andb_true_iff, <- (IH (p ++ [PIndex i]) x), <- (IHxs (S i)).
    split.
    + intros H. now apply app_eq_nil in H.
    + intros [-> ->]. reflexivity.
Qed.

(** A zod type raises no issue exactly on the data it accepts. *)
Lemma check_accepts (t : ZodType) :
  forall p v, check t p v = [] <-> accepts t v = true.
Proof.
  induction t as [min| |checks| | |options|elem IH|inner IH|inner IH];
    intros p v.
  - destruct min as [[n msg]|]; destruct v; simpl;
      try (split; discriminate); try tauto.
    unfold minLength.
    destruct (Nat.ltb_spec (String.length s) n);
      destruct (Nat.leb_spec n (String.length s));
      try lia; split; try discriminate; reflexivity.
  - simpl. tauto.
  - destruct v; simpl; try (split; discriminate).
    induction checks as [|c checks IHc]; simpl; [tauto|].
    rewrite andb_true_iff, <- IHc. split.
    + intros H. apply app_eq_nil in H. destruct H as [Hc Hrest].
      split; [|exact Hrest].
      destruct c; simpl in *;
        [ destruct (Qle_bool (inject_Z bound) q)
        | destruct (Qle_bool q (inject_Z bound))
        | destruct (isInteger q) ]; try reflexivity; discriminate Hc.
    + intros [Hc ->]. rewrite app_nil_r.
      destruct c; simpl in *; now rewrite Hc.
  - destruct v; simpl; split; try discriminate; reflexivity.
  - destruct v; simpl; split; discriminate.
  - destruct v; simpl; try (split; discriminate).
    destruct (mem s options); split; try discriminate; reflexivity.
  - destruct v; try (simpl; split; discriminate).
    apply (each_accepts elem p xs IH).
  - destruct v; try (simpl; tauto); apply IH.
  - destruct v; try (simpl; tauto); apply IH.
Qed.

Lemma issues_acceptsObject (shape : ZodObject) (o : object) :
  issues shape o = [] <-> acceptsObject shape o = true.
Proof.
  unfold issues, acceptsObject.
  induction shape as [|[k t] shape IH]; simpl.
  - tauto.
  - rewrite andb_true_iff, <- IH, <- (check_accepts t [PKey k]).
    split.
    + intros H. now apply app_eq_nil in H.
    + intros [-> ->]. reflexivity.
Qed.

Lemma coerced_array (v : value) :
  optional (nullable (arrayOf (fun _ : value => true))) v
  = optional (nullable isArray) v.
Proof.
  destruct v; try reflexivity. simpl.
  induction xs as [|x xs IH]; [reflexivity | exact IH].
Qed.

Lemma int32_checks (v : value) :
  optional
    (nullable
       (isNumberWith
          [ NumMin INT32_MIN
              "Number must be greater than or equal to -2147483648";
            NumMax INT32_MAX
              "Number must be less than or equal to 2147483647";
            NumInt ])) v
  = optional (nullable isInt32) v.
Proof.
  destruct v; try reflexivity. simpl.
  now rewrite andb_true_r, andb_assoc.
Qed.

Ltac by_keys :=
  rewrite issues_acceptsObject; unfold acceptsObject; simpl;
  rewrite ?coerced_array, ?int32_checks, ?andb_true_iff; tauto.

Lemma grievance_issues (o : object) :
  issues insertGrievanceSchema o = [] <-> grievanceInputOk o = true.
Proof. unfold grievanceInputOk. by_keys. Qed.

Lemma verification_issues (o : object) :
  issues insertVerificationSchema o = [] <-> verificationInputOk o = true.
Proof. unfold verificationInputOk. by_keys. Qed.




(** X3. The creation validator for users raises no issue exactly on the
    bodies with string username, password, fullName and mobileNumber, a
    role that is absent or a string, and email and villageName that are
    absent, null or strings; id and createdAt are not among its keys. *)
Theorem user_validator_accepts (o : object) :
  (issues insertUserSchema o = [] <-> userInputOk o = true)
  /\ keys insertUserSchema
     = [ "username"; "password"; "fullName"; "role"; "mobileNumber";
         "email"; "villageName" ].
Proof.
  split; [unfold userInputOk; by_keys | reflexivity].
Qed.

(** X4. The creation validator for ledger records raises no issue exactly
    on the bodies with string grievanceId, transactionHash, eventType and
    eventData and a blockNumber that is absent, null or a string; id and
    timestamp are not among its keys. *)
Theorem blockchainRecord_validator_accepts (o : object) :
  (issues insertBlockchainRecordSchema o = []
   <-> blockchainRecordInputOk o = true)
  /\ keys insertBlockchainRecordSchema
     = [ "grievanceId"; "transactionHash"; "blockNumber"; "eventType";
         "eventData" ].
Proof.
  split; [unfold blockchainRecordInputOk; by_keys | reflexivity].
Qed.

(* ===================================================================== *)
(** ** More on creating a grievance                                       *)
(* ===================================================================== *)

Lemma grievanceInputOk_parsedBody (body : object) :
  grievanceInputOk (parsedBody body) = grievanceInputOk body.
Proof.
  unfold grievanceInputOk.
  now rewrite !get_parsedBody by (simpl; tauto).
Qed.

Lemma postGrievances_row (host : Host) (body : object) (w : World) :
  issues insertGrievanceSchema (parsedBody body) = [] ->
  truthy (get "fullName" body) = true ->
  truthy (get "mobileNumber" body) = true ->
  exists g,
    fst (postGrievances host body w) = mkResponse 201 (JGrievance g)
    /\ grievances (snd (postGrievances host body w)) = grievances w ++ [g]
    /\ verifications (snd (postGrievances host body w)) = verifications w
    /\ extendsList (users w) (users (snd (postGrievances host body w)))
    /\ calls (snd (postGrievances host body w))
       = calls w
         ++ [CallCreateGrievance
               (strip (toStringOn host) insertGrievanceSchema
                      (parsedBody body))
               "temp-user-id" (get "fullName" body)
               (get "mobileNumber" body)]
    /\ Grievance.status g = "pending"
    /\ Grievance.assignedTo g = None
    /\ Grievance.resolvedAt g = None
    /\ Grievance.verificationDeadline g = None
    /\ Grievance.title g = asString (get "title" body)
    /\ Grievance.category g = asString (get "category" body)
    /\ Grievance.description g = asString (get "description" body)
    /\ Grievance.villageName g = asString (get "villageName" body).
Proof.
  intros Hok Hn Hm. unfold postGrievances. fold (parsedBody body).
  rewrite (parse_Ok _ _ _ Hok), Hn, Hm. simpl negb. cbv iota.
  pose proof (get_strip_at (toStringOn host) insertGrievanceSchema "title"
                (parsedBody body) _ NoDup_grievance_keys eq_refl) as Dt.
  pose proof (get_strip_at (toStringOn host) insertGrievanceSchema "category"
                (parsedBody body) _ NoDup_grievance_keys eq_refl)
    as Dc.
  pose proof (get_strip_at (toStringOn host) insertGrievanceSchema "description"
                (parsedBody body) _ NoDup_grievance_keys eq_refl)
    as Dd.
  pose proof (get_strip_at (toStringOn host) insertGrievanceSchema "villageName"
                (parsedBody body) _ NoDup_grievance_keys eq_refl)
    as Dv.
  cbn [output] in Dt, Dc, Dd, Dv.
  rewrite get_parsedBody in Dt, Dc, Dd, Dv by (simpl; tauto).
  generalize dependent (strip (toStringOn host) insertGrievanceSchema
                          (parsedBody body)).
  intros data Dt Dc Dd Dv.
  run_handler. rewrite Dt, Dc, Dd, Dv.
  destruct (find _ (users w)) as [owner|]; simpl;
    eexists; repeat split; unfold extendsList;
    solve [ exists []; now rewrite app_nil_r | eexists; reflexivity ].
Qed.



Lemma creation_key (k : string) :
  In k (keys insertGrievanceSchema) -> mem k creationKeys = true.
Proof.
  simpl. intros H.
  repeat (destruct H as [<- | H]; [reflexivity|]). destruct H.
Qed.

(** X6. POST /api/grievances reads its body at fourteen keys only: the
    twelve of the validator, fullName and mobileNumber. A value under any
    other key, email included, changes neither the answer nor the world. *)
Theorem creation_ignores_other_keys (host : Host) (body : object) (w : World)
  (k : string) (v : value) :
  mem k creationKeys = false ->
  postGrievances host (set k v body) w = postGrievances host body w.
Proof.
  intros Hk.
  assert (Hf : "fullName" <> k).
  { intros <-. discriminate Hk. }
  assert (Hm : "mobileNumber" <> k).
  { intros <-. discriminate Hk. }
  unfold postGrievances.
  rewrite (get_set_other "fullName" k), (get_set_other "mobileNumber" k)
    by assumption.
  replace (parse (toStringOn host) insertGrievanceSchema
             (set "email" (or (get "email" (set k v body)) VNull)
                (rest_without ["fullName"; "mobileNumber"; "email"]
                   (set k v body))))
    with (parse (toStringOn host) insertGrievanceSchema
            (set "email" (or (get "email" body) VNull)
               (rest_without ["fullName"; "mobileNumber"; "email"] body))).
  - reflexivity.
  - apply parse_ext. intros k' Hk'.
    destruct (schema_key_kept k' Hk') as [Hne _].
    rewrite !get_set_other, !has_set_other by exact Hne.
    assert (Hkk : k' <> k).
    { intros ->. rewrite (creation_key k Hk') in Hk. discriminate Hk. }
    destruct (rest_without_set ["fullName"; "mobileNumber"; "email"]
                k v body k' Hkk) as [-> ->].
    now split.
Qed.

Lemma creation_ignores_other_keys_witness :
  postGrievances Sample.host
    (set "email" (VStr "a@b.in") Sample.complaint) emptyWorld
  = postGrievances Sample.host Sample.complaint emptyWorld.
Proof.
  exact (creation_ignores_other_keys Sample.host Sample.complaint emptyWorld
           "email" (VStr "a@b.in") eq_refl).
Defined.

(* ===================================================================== *)
(** ** The world after each writing handler                               *)
(* ===================================================================== *)

Lemma accept_world (host : Host) (id : string) (body : object) (w : World)
  (q : Q) :
  get "resolutionTimeline" body = VNum q ->
  Qnum q <> 0%Z ->
  let w' := snd (postGrievanceAccept host id body w) in
  users w' = match find isOfficer (users w) with
             | Some _ => users w
             | None => users w ++ [newOfficer host w]
             end
  /\ grievances w'
     = rewriteAt id
         (fun g => Grievance.with_status "in_progress"
                     (Grievance.with_assignment (officerId host w) q g))
         (grievances w)
  /\ verifications w' = verifications w
  /\ calls w'
     = calls w
       ++ CallGetUserByUsername "panchayat-officer"
          :: match find isOfficer (users w) with
             | Some _ => []
             | None => [CallCreateUser "panchayat-officer"]
             end
       ++ [CallAcceptGrievance id].
Proof.
  intros Ht Hq w'. subst w'.
  unfold postGrievanceAccept, officerId, isOfficer, newOfficer, rewriteAt.
  rewrite Ht. apply Z.eqb_neq in Hq. simpl. rewrite Hq. simpl.
  run_handler.
  destruct (find _ (users w)) as [officer|]; simpl;
    destruct (find (Storage.hasId id) _); simpl;
    rewrite <- ?app_assoc; repeat split.
Qed.

Lemma patch_world (host : Host) (id : string) (body : StatusBody) (w : World)
  (s : string) :
  status body = Some s ->
  s <> EmptyString ->
  let w' := snd (patchGrievanceStatus host id body w) in
  users w' = users w
  /\ verifications w' = verifications w
  /\ calls w' = calls w ++ [CallUpdateGrievanceStatus id (storedStatus s)]
  /\ exists change,
       grievances w' = rewriteAt id change (grievances w)
       /\ forall g,
            Grievance.status (change g) = storedStatus s
            /\ filedPart (change g) = filedPart g
            /\ Grievance.assignedTo (change g) = Grievance.assignedTo g
            /\ Grievance.resolutionTimeline (change g)
               = Grievance.resolutionTimeline g
            /\ (s <> "resolved" ->
                Grievance.resolvedAt (change g) = Grievance.resolvedAt g
                /\ Grievance.verificationDeadline (change g)
                   = Grievance.verificationDeadline g).
Proof.
  intros Hs Hne w'. subst w'.
  unfold patchGrievanceStatus, storedStatus, rewriteAt. rewrite Hs.
  rewrite (truthy_nonempty s Hne). simpl negb. cbv iota.
  destruct (String.eqb_spec s "resolved") as [->|Hnr];
    destruct (truthyString (resolutionNotes body));
    destruct (truthyArray (resolutionEvidence body)); run_handler;
    destruct (find (Storage.hasId id) _); simpl;
    (split; [reflexivity|]); (split; [reflexivity|]);
    (split; [reflexivity|]);
    eexists; (split; [reflexivity|]); intros g; repeat split;
    congruence.
Qed.

Lemma verification_world (host : Host) (body : object) (w : World)
  (gid type status : string) :
  issues insertVerificationSchema body = [] ->
  get "grievanceId" body = VStr gid ->
  get "verificationType" body = VStr type ->
  get "status" body = VStr status ->
  let w' := snd (postVerifications host body w) in
  users w' = match find isVerifier (users w) with
             | Some _ => users w
             | None => users w ++ [newVerifier host w]
             end
  /\ (exists v,
        fst (postVerifications host body w)
        = mkResponse 201 (JVerification v)
        /\ verifications w' = verifications w ++ [v]
        /\ Verification.userId v = verifierId host w
        /\ Verification.grievanceId v = gid)
  /\ grievances w'
     = rewriteAt gid
         (fun g => Grievance.with_status
                     (verdict type status (Grievance.status g)) g)
         (grievances w)
  /\ calls w'
     = calls w
       ++ CallGetUserByUsername "community-verifier"
          :: match find isVerifier (users w) with
             | Some _ => []
             | None => [CallCreateUser "community-verifier"]
             end
       ++ CallCreateVerification gid
          :: (if String.eqb type "verify" && String.eqb status "verified"
              then [CallUpdateGrievanceStatus gid "resolved"]
              else if String.eqb type "dispute"
                      && String.eqb status "disputed"
                   then [CallUpdateGrievanceStatus gid "in_progress"]
                   else []).
Proof.
  intros Hok Hg Ht Hs w'. subst w'.
  unfold postVerifications. rewrite (parse_Ok _ _ _ Hok).
  pose proof (get_strip_at (toStringOn host) insertVerificationSchema "grievanceId" body
                _ NoDup_verification_keys eq_refl) as Dg.
  pose proof (get_strip_at (toStringOn host) insertVerificationSchema "verificationType" body
                _ NoDup_verification_keys eq_refl) as Dt.
  pose proof (get_strip_at (toStringOn host) insertVerificationSchema "status" body
                _ NoDup_verification_keys eq_refl) as Ds.
  cbn [output] in Dg, Dt, Ds.
  rewrite Hg in Dg. rewrite Ht in Dt. rewrite Hs in Ds.
  generalize dependent (strip (toStringOn host) insertVerificationSchema body).
  intros data Dg Dt Ds.
  unfold verifierId, isVerifier, newVerifier, rewriteAt, verdict.
  run_handler. rewrite Dg, Dt, Ds. simpl.
  assert (Hsame : forall gs : list Grievance.t,
            gs = map (fun g => if Storage.hasId gid g
                               then Grievance.with_status (Grievance.status g) g
                               else g) gs).
  { induction gs as [|g gs IH]; simpl; [reflexivity|].
    rewrite with_status_same. destruct (Storage.hasId gid g); congruence. }
  destruct (find _ (users w)) as [verifier|]; simpl;
    destruct (String.eqb type "verify" && String.eqb status "verified");
    [| destruct (String.eqb type "dispute" && String.eqb status "disputed")
     | | destruct (String.eqb type "dispute" && String.eqb status "disputed")];
    simpl; rewrite <- ?app_assoc; simpl;
    (split; [reflexivity|]);
    (split; [eexists; repeat split|]);
    (split; [solve [reflexivity | apply Hsame]|]); reflexivity.
Qed.

(* ===================================================================== *)
(** ** The two stand-in accounts                                          *)
(* ===================================================================== *)

Lemma find_app_none {A : Type} (p : A -> bool) (l : list A) (x : A) :
  find p l = None -> p x = true -> find p (l ++ [x]) = Some x.
Proof.
  induction l as [|y l IH]; simpl.
  - now intros _ ->.
  - destruct (p y); [discriminate | exact IH].
Qed.

(** X7. An accept that passes the timeline check works under the account
    named panchayat-officer: when there is none it creates one, with role
    official, before it looks for the grievance, so also when the answer is
    404; when there is one it creates nothing. Any later accept finds that
    account and records the same officer id. *)
Theorem accept_creates_officer_once (host : Host) (id : string)
  (body : object) (w : World) (q : Q) :
  get "resolutionTimeline" body = VNum q ->
  Qnum q <> 0%Z ->
  let w' := snd (postGrievanceAccept host id body w) in
  (find isOfficer (users w) = None ->
   users w' = users w ++ [newOfficer host w]
   /\ User.role (newOfficer host w) = "official")
  /\ (forall officer, find isOfficer (users w) = Some officer ->
      users w' = users w)
  /\ (exists officer,
        find isOfficer (users w') = Some officer
        /\ User.id officer = officerId host w)
  /\ (forall id2 body2 q2,
        get "resolutionTimeline" body2 = VNum q2 ->
        Qnum q2 <> 0%Z ->
        users (snd (postGrievanceAccept host id2 body2 w')) = users w'
        /\ officerId host w' = officerId host w).
Proof.
  intros Ht Hq w'.
  destruct (accept_world host id body w q Ht Hq) as (Hu & _ & _ & _).
  fold w' in Hu.
  assert (Hfound : exists officer,
             find isOfficer (users w') = Some officer
             /\ User.id officer = officerId host w).
  { rewrite Hu. unfold officerId.
    destruct (find isOfficer (users w)) as [officer|] eqn:Hf.
    - now exists officer.
    - exists (newOfficer host w). split; [|reflexivity].
      now apply find_app_none. }
  split; [|split; [|split]].
  - intros Hnone. rewrite Hnone in Hu. now split.
  - intros officer Hsome. now rewrite Hsome in Hu.
  - exact Hfound.
  - intros id2 body2 q2 Ht2 Hq2.
    destruct Hfound as (officer & Hf & Hid).
    destruct (accept_world host id2 body2 w' q2 Ht2 Hq2) as (Hu2 & _).
    rewrite Hf in Hu2. split; [exact Hu2|].
    unfold officerId at 1. now rewrite Hf.
Qed.

Lemma accept_creates_officer_once_witness :
  users (snd (postGrievanceAccept Sample.host "no-such-id" Sample.acceptBody
                Sample.filed))
  = users Sample.filed ++ [newOfficer Sample.host Sample.filed].
Proof.
  assert (Hq : Qnum 7 <> 0%Z) by discriminate.
  exact (proj1 (proj1 (accept_creates_officer_once Sample.host "no-such-id"
                         Sample.acceptBody Sample.filed 7%Q eq_refl Hq)
                      eq_refl)).
Defined.



(** X9. POST /api/verifications reads its body at the five keys of the
    validator only (grievanceId, verificationType, status, comments,
    evidenceFiles): a value under any other key, such as id, userId or
    createdAt, changes neither the answer nor the world. *)
Theorem verification_ignores_other_keys (host : Host) (body : object)
  (w : World) (k : string) (v : value) :
  mem k (keys insertVerificationSchema) = false ->
  keys insertVerificationSchema
  = ["grievanceId"; "verificationType"; "status"; "comments"; "evidenceFiles"]
  /\ postVerifications host (set k v body) w = postVerifications host body w.
Proof.
  intros Hk. split; [reflexivity|].
  unfold postVerifications.
  replace (parse (toStringOn host) insertVerificationSchema (set k v body))
    with (parse (toStringOn host) insertVerificationSchema body); [reflexivity|].
  apply parse_ext. intros k' Hk'.
  assert (Hne : k' <> k).
  { intros ->. unfold mem in Hk.
    assert (Ht : existsb (String.eqb k) (keys insertVerificationSchema) = true).
    { apply existsb_exists. exists k. split; [exact Hk'|].
      apply String.eqb_refl. }
    congruence. }
  now rewrite get_set_other, has_set_other by exact Hne.
Qed.

Lemma verification_ignores_other_keys_witness :
  postVerifications Sample.host
    (set "userId" (VStr "someone-else") Sample.verifyBody) Sample.awaiting
  = postVerifications Sample.host Sample.verifyBody Sample.awaiting.
Proof.
  exact (proj2 (verification_ignores_other_keys Sample.host Sample.verifyBody
                  Sample.awaiting "userId" (VStr "someone-else") eq_refl)).
Defined.

(* ===================================================================== *)
(** ** What no request does                                               *)
(* ===================================================================== *)

Lemma timeline_cases (body : object) :
  (truthy (get "resolutionTimeline" body) = false
   \/ typeof (get "resolutionTimeline" body) <> "number")
  \/ exists q, get "resolutionTimeline" body = VNum q /\ Qnum q <> 0%Z.
Proof.
  destruct (get "resolutionTimeline" body) as [| |b|q|s|xs|fs];
    try (left; right; discriminate).
  destruct (Z.eqb_spec (Qnum q) 0) as [Hz|Hnz].
  - left. left. simpl. apply Z.eqb_eq in Hz. now rewrite Hz.
  - right. now exists q.
Qed.

Lemma status_cases (body : StatusBody) :
  (status body = None \/ status body = Some EmptyString)
  \/ exists s, status body = Some s /\ s <> EmptyString.
Proof.
  destruct (status body) as [[|c s]|].
  - left. now right.
  - right. eexists. split; [reflexivity|discriminate].
  - left. now left.
Qed.

Lemma rewriteAt_absent (id : string) (change : Grievance.t -> Grievance.t)
  (gs : list Grievance.t) :
  find (Storage.hasId id) gs = None -> rewriteAt id change gs = gs.
Proof.
  unfold rewriteAt. induction gs as [|g gs IH]; simpl; [reflexivity|].
  destruct (Storage.hasId id g); [discriminate|].
  intros H. now rewrite IH.
Qed.

Lemma rewriteAt_filedPart (id : string) (change : Grievance.t -> Grievance.t)
  (gs : list Grievance.t) :
  (forall g, filedPart (change g) = filedPart g) ->
  map filedPart (rewriteAt id change gs) = map filedPart gs.
Proof.
  intros H. unfold rewriteAt. rewrite map_map. apply map_ext.
  intros g. now destruct (Storage.hasId id g).
Qed.

Lemma postGrievances_nameless (host : Host) (body : object) (w : World) :
  issues insertGrievanceSchema (parsedBody body) = [] ->
  truthy (get "fullName" body) && truthy (get "mobileNumber" body) = false ->
  postGrievances host body w
  = (mkResponse 400 (JError "Full name and mobile number are required"), w).
Proof.
  intros Hok Hnames. unfold postGrievances. fold (parsedBody body).
  rewrite (parse_Ok _ _ _ Hok).
  destruct (truthy (get "fullName" body));
    destruct (truthy (get "mobileNumber" body)); try discriminate;
    reflexivity.
Qed.

(** X10. A request that is answered 400 leaves the world exactly as it
    was: no row changes and nothing is called on the gateway. A request
    that is answered 404 changes no grievance and no verification. *)
Theorem errors_change_no_row (host : Host) (req : Request) (w : World) :
  let r := handle host req w in
  (statusCode (fst r) = 400%nat -> snd r = w)
  /\ (statusCode (fst r) = 404%nat ->
      grievances (snd r) = grievances w
      /\ verifications (snd r) = verifications w).
Proof.
  intros r. subst r. destruct req as [| |id|body|id body|id body|body|gid];
    unfold handle.
  - split; [discriminate | intros _; now split].
  - split; [discriminate | intros _; now split].
  - unfold getGrievanceById. run_handler.
    destruct (find (Storage.hasId id) (grievances w)); simpl;
      (split; [discriminate | intros _; now split]).
  - destruct (issues insertGrievanceSchema (parsedBody body)) as [|i rest]
      eqn:Hi.
    + destruct (truthy (get "fullName" body)
                && truthy (get "mobileNumber" body)) eqn:Hn.
      * apply andb_true_iff in Hn. destruct Hn as [Hn Hm].
        destruct (postGrievances_row host body w Hi Hn Hm) as (g & Hr & _).
        rewrite Hr. split; discriminate.
      * rewrite (postGrievances_nameless host body w Hi Hn).
        split; [reflexivity | discriminate].
    + rewrite (postGrievances_invalid host body w i)
        by (rewrite Hi; now left).
      split; [reflexivity | discriminate].
  - destruct (timeline_cases body) as [Hbad | (q & Ht & Hq)].
    + rewrite (accept_rejected host id body w Hbad).
      split; [reflexivity | discriminate].
    + destruct (accept_passed host id body w q Ht Hq) as (Hr & _ & _).
      destruct (accept_world host id body w q Ht Hq) as (_ & Hg & Hv & _).
      rewrite Hr, Hg, Hv. unfold lookup.
      destruct (find (Storage.hasId id) (grievances w)) eqn:Hf.
      * split; discriminate.
      * split; [discriminate|]. intros _.
        now rewrite (rewriteAt_absent _ _ _ Hf).
  - destruct (status_cases body) as [Hbad | (s & Hs & Hne)].
    + rewrite (patch_rejected host id body w Hbad).
      split; [reflexivity | discriminate].
    + destruct (patch_world host id body w s Hs Hne)
        as (_ & Hv & _ & change & Hg & _).
      rewrite Hg, Hv.
      assert (Hr : fst (patchGrievanceStatus host id body w)
                   = match lookup id w with
                     | Some g =>
                         fst (patchGrievanceStatus host id body w)
                     | None =>
                         mkResponse 404 (JError "Grievance not found")
                     end
                   /\ (forall g, lookup id w = Some g ->
                       statusCode (fst (patchGrievanceStatus host id body w))
                       = 200%nat)).
      { destruct (String.eqb_spec s "resolved") as [->|Hnr].
        - destruct (patch_resolved host id body w Hs) as [Hr _].
          rewrite Hr. destruct (lookup id w); split; try reflexivity;
            intros g0 Hg0; inversion Hg0; reflexivity.
        - destruct (patch_other host id body w s Hs Hne Hnr) as [Hr _].
          rewrite Hr. destruct (lookup id w); split; try reflexivity;
            intros g0 Hg0; inversion Hg0; reflexivity. }
      destruct Hr as [Hnone Hsome]. unfold lookup in *.
      destruct (find (Storage.hasId id) (grievances w)) as [g|] eqn:Hf.
      * rewrite (Hsome g eq_refl). split; discriminate.
      * rewrite Hnone. split; [discriminate|]. intros _.
        now rewrite (rewriteAt_absent _ _ _ Hf).
  - destruct (issues insertVerificationSchema body) as [|i rest] eqn:Hi.
    + destruct (verification_fields body Hi)
        as (g & type & status & Hg & Ht & Hs).
      destruct (postVerifications_valid host body w g type status Hi Hg Ht Hs)
        as (v & Hr & _).
      rewrite Hr. split; discriminate.
    + rewrite (postVerifications_invalid host body w i rest Hi).
      split; [reflexivity | discriminate].
  - split; [discriminate | intros _; now split].
Qed.

Lemma errors_change_no_row_witness :
  snd (handle Sample.host
         (PatchGrievanceStatus Sample.filedId
            (mkStatusBody None (Some "done") None))
         Sample.accepted)
  = Sample.accepted.
Proof.
  exact (proj1 (errors_change_no_row Sample.host
                  (PatchGrievanceStatus Sample.filedId
                     (mkStatusBody None (Some "done") None))
                  Sample.accepted) eq_refl).
Defined.

Lemma extendsList_refl {A : Type} (l : list A) : extendsList l l.
Proof. exists []. now rewrite app_nil_r. Qed.

Lemma extendsList_trans {A : Type} (l1 l2 l3 : list A) :
  extendsList l1 l2 -> extendsList l2 l3 -> extendsList l1 l3.
Proof.
  intros [m1 ->] [m2 ->]. exists (m1 ++ m2). now rewrite app_assoc.
Qed.

Lemma extendsList_app {A : Type} (l more : list A) :
  extendsList l (l ++ more).
Proof. now exists more. Qed.

Lemma keepsRows_refl (w : World) : keepsRows w w.
Proof. repeat split; apply extendsList_refl. Qed.

Lemma keepsRows_trans (w1 w2 w3 : World) :
  keepsRows w1 w2 -> keepsRows w2 w3 -> keepsRows w1 w3.
Proof.
  intros (Hu & Hv & Hg & Hc) (Hu' & Hv' & Hg' & Hc').
  repeat split; eapply extendsList_trans; eassumption.
Qed.

Lemma officer_users (host : Host) (w : World) :
  extendsList (users w)
    match find isOfficer (users w) with
    | Some _ => users w
    | None => users w ++ [newOfficer host w]
    end.
Proof.
  destruct (find isOfficer (users w));
    [apply extendsList_refl | apply extendsList_app].
Qed.

Lemma verifier_users (host : Host) (w : World) :
  extendsList (users w)
    match find isVerifier (users w) with
    | Some _ => users w
    | None => users w ++ [newVerifier host w]
    end.
Proof.
  destruct (find isVerifier (users w));
    [apply extendsList_refl | apply extendsList_app].
Qed.

(** One request keeps the rows. *)
Lemma handle_keepsRows (host : Host) (req : Request) (w : World) :
  keepsRows w (snd (handle host req w)).
Proof.
  destruct req as [| |id|body|id body|id body|body|gid]; unfold handle.
  - repeat split; try apply extendsList_refl. apply extendsList_app.
  - repeat split; try apply extendsList_refl. apply extendsList_app.
  - unfold getGrievanceById. run_handler.
    destruct (find (Storage.hasId id) (grievances w)); simpl;
      repeat split; try apply extendsList_refl; apply extendsList_app.
  - destruct (issues insertGrievanceSchema (parsedBody body)) as [|i rest]
      eqn:Hi.
    + destruct (truthy (get "fullName" body)
                && truthy (get "mobileNumber" body)) eqn:Hn.
      * apply andb_true_iff in Hn. destruct Hn as [Hn Hm].
        destruct (postGrievances_row host body w Hi Hn Hm)
          as (g & _ & Hg & Hv & Hu & Hc & _).
        repeat split.
        -- exact Hu.
        -- rewrite Hv. apply extendsList_refl.
        -- rewrite Hg, map_app. apply extendsList_app.
        -- rewrite Hc. apply extendsList_app.
      * rewrite (postGrievances_nameless host body w Hi Hn).
        apply keepsRows_refl.
    + rewrite (postGrievances_invalid host body w i)
        by (rewrite Hi; now left).
      apply keepsRows_refl.
  - destruct (timeline_cases body) as [Hbad | (q & Ht & Hq)].
    + rewrite (accept_rejected host id body w Hbad). apply keepsRows_refl.
    + destruct (accept_world host id body w q Ht Hq) as (Hu & Hg & Hv & Hc).
      repeat split.
      * rewrite Hu. apply officer_users.
      * rewrite Hv. apply extendsList_refl.
      * rewrite Hg, rewriteAt_filedPart by reflexivity.
        apply extendsList_refl.
      * rewrite Hc. apply extendsList_app.
  - destruct (status_cases body) as [Hbad | (s & Hs & Hne)].
    + rewrite (patch_rejected host id body w Hbad). apply keepsRows_refl.
    + destruct (patch_world host id body w s Hs Hne)
        as (Hu & Hv & Hc & change & Hg & Hchange).
      repeat split.
      * rewrite Hu. apply extendsList_refl.
      * rewrite Hv. apply extendsList_refl.
      * rewrite Hg, rewriteAt_filedPart by (intros g; apply Hchange).
        apply extendsList_refl.
      * rewrite Hc. apply extendsList_app.
  - destruct (issues insertVerificationSchema body) as [|i rest] eqn:Hi.
    + destruct (verification_fields body Hi)
        as (g & type & status & Hg & Ht & Hs).
      destruct (verification_world host body w g type status Hi Hg Ht Hs)
        as (Hu & (v & _ & Hv & _) & Hgs & Hc).
      repeat split.
      * rewrite Hu. apply verifier_users.
      * rewrite Hv. apply extendsList_app.
      * rewrite Hgs, rewriteAt_filedPart by reflexivity.
        apply extendsList_refl.
      * rewrite Hc. apply extendsList_app.
    + rewrite (postVerifications_invalid host body w i rest Hi).
      apply keepsRows_refl.
  - repeat split; try apply extendsList_refl. apply extendsList_app.
Qed.

(** X11. Whatever requests are served, in whatever order, no row is
    removed, moved or rewritten in what was filed: the users and the
    verifications of the world before are still there, unchanged and in
    place, with new ones only after them; and every grievance is still in
    its place with its id, grievance number, owner, title, category,
    description, village, priority, evidence and voice references and
    creation time. *)
Theorem rows_are_kept (host : Host) (reqs : list Request) (w : World) :
  let w' := serve host reqs w in
  keepsRows w w'
  /\ (forall v, In v (verifications w) -> In v (verifications w'))
  /\ (forall n g, nth_error (grievances w) n = Some g ->
      exists g', nth_error (grievances w') n = Some g'
                 /\ filedPart g' = filedPart g).
Proof.
  intros w'. subst w'.
  assert (Hkeep : keepsRows w (serve host reqs w)).
  { revert w. induction reqs as [|req reqs IH]; intros w; simpl.
    - apply keepsRows_refl.
    - eapply keepsRows_trans; [apply handle_keepsRows | apply IH]. }
  split; [exact Hkeep|].
  destruct Hkeep as (_ & [vs Hv] & [fs Hg] & _). split.
  - intros v Hin. rewrite Hv. apply in_or_app. now left.
  - intros n g Hn.
    assert (Hf : nth_error (map filedPart (grievances (serve host reqs w))) n
                 = Some (filedPart g)).
    { rewrite Hg, nth_error_app1.
      - now rewrite nth_error_map, Hn.
      - rewrite length_map. apply nth_error_Some. congruence. }
    rewrite nth_error_map in Hf.
    destruct (nth_error (grievances (serve host reqs w)) n) as [g'|];
      [|discriminate].
    exists g'. split; [reflexivity|]. simpl in Hf. congruence.
Qed.

Lemma new_call (old new : list Call) (c : Call) :
  In c (old ++ new) -> ~ In c old -> In c new.
Proof. intros H Hn. apply in_app_or in H. tauto. Qed.

Lemma storedStatus_not_resolved (s : string) : storedStatus s <> "resolved".
Proof.
  unfold storedStatus. destruct (String.eqb_spec s "resolved");
    [discriminate | assumption].
Qed.

(** The trace of one request. *)
Lemma handle_calls (host : Host) (req : Request) (w : World) :
  calls (snd (handle host req w)) = calls w ++ gatewayCalls host req w.
Proof.
  destruct req as [| |id|body|id body|id body|body|gid];
    unfold handle, gatewayCalls.
  - reflexivity.
  - reflexivity.
  - unfold getGrievanceById. run_handler.
    now destruct (find (Storage.hasId id) (grievances w)).
  - destruct (grievanceInputOk body) eqn:Hok.
    + rewrite <- grievanceInputOk_parsedBody in Hok.
      apply grievance_issues in Hok. simpl andb.
      destruct (truthy (get "fullName" body)
                && truthy (get "mobileNumber" body)) eqn:Hn.
      * apply andb_true_iff in Hn. destruct Hn as [Hn Hm].
        destruct (postGrievances_row host body w Hok Hn Hm)
          as (g & _ & _ & _ & _ & Hc & _).
        exact Hc.
      * rewrite (postGrievances_nameless host body w Hok Hn).
        simpl. now rewrite app_nil_r.
    + destruct (issues insertGrievanceSchema (parsedBody body)) as [|i rest]
        eqn:Hi.
      * apply grievance_issues in Hi.
        rewrite grievanceInputOk_parsedBody in Hi. congruence.
      * rewrite (postGrievances_invalid host body w i)
          by (rewrite Hi; now left).
        simpl. now rewrite app_nil_r.
  - cbv zeta. destruct (timeline_cases body) as [Hbad | (q & Ht & Hq)].
    + rewrite (accept_rejected host id body w Hbad).
      assert (Hg : truthy (get "resolutionTimeline" body)
                   && String.eqb (typeof (get "resolutionTimeline" body))
                                 "number" = false).
      { destruct Hbad as [-> | Hty]; [reflexivity|].
        apply String.eqb_neq in Hty. rewrite Hty. apply andb_false_r. }
      rewrite Hg. simpl. now rewrite app_nil_r.
    + destruct (accept_world host id body w q Ht Hq) as (_ & _ & _ & Hc).
      rewrite Hc, Ht. simpl. apply Z.eqb_neq in Hq. now rewrite Hq.
  - destruct (status_cases body) as [Hbad | (s & Hs & Hne)].
    + rewrite (patch_rejected host id body w Hbad).
      destruct Hbad as [-> | ->]; simpl; now rewrite app_nil_r.
    + destruct (patch_world host id body w s Hs Hne) as (_ & _ & Hc & _).
      now rewrite Hc, Hs, (truthy_nonempty s Hne).
  - destruct (issues insertVerificationSchema body) as [|i rest] eqn:Hi.
    + destruct (verification_fields body Hi)
        as (g & type & status & Hg & Ht & Hs).
      destruct (verification_world host body w g type status Hi Hg Ht Hs)
        as (_ & _ & _ & Hc).
      apply verification_issues in Hi.
      rewrite Hc, Hi. unfold isVerification. now rewrite Hg, Ht, Hs.
    + rewrite (postVerifications_invalid host body w i rest Hi).
      destruct (verificationInputOk body) eqn:Hok.
      * apply verification_issues in Hok. congruence.
      * simpl. now rewrite app_nil_r.
  - reflexivity.
Qed.

(** X12. The gateway is asked to store the status resolved by one kind of
    request only: a verification that the validator accepts, of type verify
    with status verified, for that grievance. The status handler never asks
    for it: it asks for pending_verification in its place. *)
Theorem only_verification_stores_resolved (host : Host) (req : Request)
  (w : World) (id : string) :
  In (CallUpdateGrievanceStatus id "resolved")
     (calls (snd (handle host req w))) ->
  ~ In (CallUpdateGrievanceStatus id "resolved") (calls w) ->
  exists body,
    req = PostVerifications body
    /\ verificationInputOk body = true
    /\ get "grievanceId" body = VStr id
    /\ get "verificationType" body = VStr "verify"
    /\ get "status" body = VStr "verified".
Proof.
  intros Hin Hold. rewrite handle_calls in Hin.
  apply new_call in Hin; [clear Hold | exact Hold].
  destruct req as [| |gid|body|gid body|gid body|body|gid];
    unfold gatewayCalls in Hin.
  - destruct Hin as [Hc|[]]; discriminate Hc.
  - destruct Hin as [Hc|[]]; discriminate Hc.
  - destruct Hin as [Hc|[]]; discriminate Hc.
  - destruct (grievanceInputOk body && truthy (get "fullName" body)
              && truthy (get "mobileNumber" body)); [|destruct Hin].
    destruct Hin as [Hc|[]]; discriminate Hc.
  - cbv zeta in Hin.
    destruct (truthy (get "resolutionTimeline" body)
              && String.eqb (typeof (get "resolutionTimeline" body)) "number");
      [|destruct Hin].
    destruct Hin as [Hc|Hin]; [discriminate Hc|].
    apply in_app_or in Hin. destruct Hin as [Hin|[Hc|[]]];
      [|discriminate Hc].
    destruct (find isOfficer (users w)); [destruct Hin|].
    destruct Hin as [Hc|[]]; discriminate Hc.
  - destruct (status body) as [s|]; [|destruct Hin].
    destruct (truthy (VStr s)); [|destruct Hin].
    destruct Hin as [Hc|[]]. inversion Hc as [[Hid Hs]].
    now apply storedStatus_not_resolved in Hs.
  - destruct (verificationInputOk body) eqn:Hok; [|destruct Hin].
    exists body. split; [reflexivity|]. split; [exact Hok|].
    destruct (verification_fields body (proj2 (verification_issues body) Hok))
      as (g & type & status & Hg & Ht & Hs).
    unfold isVerification in Hin. rewrite Hg, Ht, Hs in Hin. simpl in Hin.
    destruct Hin as [Hc|Hin]; [discriminate Hc|].
    apply in_app_or in Hin. destruct Hin as [Hin|Hin].
    + destruct (find isVerifier (users w)); [destruct Hin|].
      destruct Hin as [Hc|[]]; discriminate Hc.
    + destruct Hin as [Hc|Hin]; [discriminate Hc|].
      destruct (String.eqb type "verify" && String.eqb status "verified")
        eqn:Hv.
      * apply andb_true_iff in Hv. destruct Hv as [Hvt Hvs].
        apply String.eqb_eq in Hvt, Hvs. rewrite Hvt in Ht. rewrite Hvs in Hs.
        destruct Hin as [Hc|[]]. injection Hc as Hid. rewrite Hid in Hg.
        repeat split; assumption.
      * destruct (String.eqb type "dispute" && String.eqb status "disputed");
          [|destruct Hin].
        destruct Hin as [Hc|[]]; discriminate Hc.
  - destruct Hin as [Hc|[]]; discriminate Hc.
Qed.


Lemma only_verification_stores_resolved_witness :
  exists body,
    PostVerifications Sample.verifyBody = PostVerifications body
    /\ get "verificationType" body = VStr "verify"
    /\ get "status" body = VStr "verified".
Proof.
  assert (Hin : In (CallUpdateGrievanceStatus Sample.filedId "resolved")
                   (calls (snd (handle Sample.host
                                  (PostVerifications Sample.verifyBody)
                                  Sample.awaiting)))).
  { vm_compute. tauto. }
  assert (Hold : ~ In (CallUpdateGrievanceStatus Sample.filedId "resolved")
                      (calls Sample.awaiting)).
  { vm_compute. intros H.
    repeat (destruct H as [H|H]; [discriminate H|]). exact H. }
  destruct (only_verification_stores_resolved Sample.host
              (PostVerifications Sample.verifyBody) Sample.awaiting
              Sample.filedId Hin Hold)
    as (body & Hreq & _ & _ & Ht & Hs).
  exists body. split; [exact Hreq|]. split; [exact Ht | exact Hs].
Defined.

(* ===================================================================== *)
(** ** How the operations compose                                         *)
(* ===================================================================== *)

Lemma getGrievanceById_lookup (id : string) (w : World) :
  fst (getGrievanceById id w)
  = match lookup id w with
    | Some g => mkResponse 200 (JGrievance g)
    | None => mkResponse 404 (JError "Grievance not found")
    end.
Proof.
  unfold getGrievanceById, lookup. run_handler.
  now destruct (find (Storage.hasId id) (grievances w)).
Qed.

Lemma queue_filter (w : World) :
  queue w
  = filter (fun g => String.eqb (Grievance.status g) "pending"
                     || String.eqb (Grievance.status g) "in_progress")
           (grievances w).
Proof. reflexivity. Qed.

Lemma lookup_in_queue (id : string) (w : World) (g : Grievance.t) :
  lookup id w = Some g -> assignable g -> In g (queue w).
Proof.
  intros Hl Ha. rewrite queue_filter. apply filter_In. split.
  - unfold lookup in Hl. now apply find_some in Hl.
  - now apply assignable_filter.
Qed.

(** X14. For an existing grievance, a status update that requests a
    non-empty status other than resolved stores that status and leaves
    resolvedAt, verificationDeadline, assignedTo and resolutionTimeline as
    they were; notes that are a non-empty string and evidence that is
    present replace the stored ones. So pending_verification, requested by
    name, is stored without the stamps that requesting resolved sets. *)
Theorem other_status_sets_no_stamp (host : Host) (id : string)
  (body : StatusBody) (w : World) (s : string) (g : Grievance.t) :
  status body = Some s ->
  s <> EmptyString ->
  s <> "resolved" ->
  lookup id w = Some g ->
  exists g',
    lookup id (snd (patchGrievanceStatus host id body w)) = Some g'
    /\ Grievance.status g' = s
    /\ Grievance.resolvedAt g' = Grievance.resolvedAt g
    /\ Grievance.verificationDeadline g' = Grievance.verificationDeadline g
    /\ Grievance.assignedTo g' = Grievance.assignedTo g
    /\ Grievance.resolutionTimeline g' = Grievance.resolutionTimeline g
    /\ Grievance.resolutionNotes g'
       = (if truthyString (resolutionNotes body) then resolutionNotes body
          else Grievance.resolutionNotes g)
    /\ Grievance.resolutionEvidence g'
       = (if truthyArray (resolutionEvidence body)
          then resolutionEvidence body
          else Grievance.resolutionEvidence g).
Proof.
  intros Hs Hne Hnr Hg.
  destruct (patch_other host id body w s Hs Hne Hnr) as [_ Hl].
  rewrite (Hl id), String.eqb_refl, Hg. simpl.
  eexists. split; [reflexivity|]. unfold suppliedUpdates. simpl.
  repeat split.
  - destruct (resolutionNotes body) as [[|c n]|]; reflexivity.
  - destruct (resolutionEvidence body); reflexivity.
Qed.

Lemma other_status_sets_no_stamp_witness :
  exists g',
    lookup Sample.filedId
      (snd (patchGrievanceStatus Sample.host Sample.filedId
              (mkStatusBody (Some "pending_verification") None None)
              Sample.accepted))
    = Some g'
    /\ Grievance.status g' = "pending_verification"
    /\ Grievance.resolvedAt g' = None.
Proof.
  assert (Hne : "pending_verification" <> EmptyString) by discriminate.
  assert (Hnr : "pending_verification" <> "resolved") by discriminate.
  destruct (other_status_sets_no_stamp Sample.host Sample.filedId
              (mkStatusBody (Some "pending_verification") None None)
              Sample.accepted "pending_verification"
              (Sample.recordIn Sample.accepted) eq_refl Hne Hnr eq_refl)
    as (g' & Hl & Hs & Hr & _).
  exists g'. now repeat split.
Defined.

(** X15. A grievance that POST /api/grievances has created can be fetched
    at once: provided the id it was given is not the id of an older record,
    GET /api/grievances/:id answers 200 with the very record that the
    creation returned, and GET /api/grievances/assigned lists it. *)
Theorem created_grievance_is_served (host : Host) (body : object) (w : World)
  (g : Grievance.t) :
  fst (postGrievances host body w) = mkResponse 201 (JGrievance g) ->
  lookup (Grievance.id g) w = None ->
  let w' := snd (postGrievances host body w) in
  fst (getGrievanceById (Grievance.id g) w') = mkResponse 200 (JGrievance g)
  /\ In g (queue w').
Proof.
  intros Hr Hfresh w'. subst w'.
  assert (Hcode : statusCode (fst (postGrievances host body w)) = 201%nat)
    by now rewrite Hr.
  destruct (postGrievances_codes host body w Hcode) as (Hok & Hn & Hm).
  destruct (postGrievances_row host body w Hok Hn Hm)
    as (g0 & Hr0 & Hg & _ & _ & _ & Hs & _).
  rewrite Hr in Hr0. injection Hr0 as <-.
  assert (Hl : lookup (Grievance.id g) (snd (postGrievances host body w))
               = Some g).
  { unfold lookup in *. rewrite Hg. apply find_app_none; [exact Hfresh|].
    apply String.eqb_refl. }
  split.
  - now rewrite getGrievanceById_lookup, Hl.
  - apply (lookup_in_queue _ _ _ Hl). now left.
Qed.

Lemma created_grievance_is_served_witness :
  fst (getGrievanceById Sample.filedId Sample.filed)
  = mkResponse 200 (JGrievance (Sample.recordIn Sample.filed)).
Proof.
  exact (proj1 (created_grievance_is_served Sample.host Sample.complaint
                  emptyWorld (Sample.recordIn Sample.filed)
                  eq_refl eq_refl)).
Defined.






(** X18. An accept and a status update change the grievance they are
    addressed to and no other: what every other id resolves to is the same
    before and after, whatever the body. *)
Theorem writes_are_confined (host : Host) (id other : string) (w : World) :
  other <> id ->
  (forall body,
     lookup other (snd (postGrievanceAccept host id body w)) = lookup other w)
  /\ (forall body,
        lookup other (snd (patchGrievanceStatus host id body w))
        = lookup other w).
Proof.
  intros Hne. apply String.eqb_neq in Hne. split; intros body.
  - destruct (timeline_cases body) as [Hbad | (q & Ht & Hq)].
    + now rewrite (accept_rejected host id body w Hbad).
    + destruct (accept_passed host id body w q Ht Hq) as (_ & Hl & _).
      now rewrite (Hl other), Hne.
  - destruct (status_cases body) as [Hbad | (s & Hs & Hnonempty)].
    + now rewrite (patch_rejected host id body w Hbad).
    + destruct (String.eqb_spec s "resolved") as [Hres|Hnr].
      * rewrite Hres in Hs.
        destruct (patch_resolved host id body w Hs) as [_ Hl].
        now rewrite (Hl other), Hne.
      * destruct (patch_other host id body w s Hs Hnonempty Hnr) as [_ Hl].
        now rewrite (Hl other), Hne.
Qed.

Lemma writes_are_confined_witness :
  lookup Sample.filedId
    (snd (patchGrievanceStatus Sample.host "id-Z" Sample.resolveBody
            Sample.accepted))
  = lookup Sample.filedId Sample.accepted.
Proof.
  assert (Hne : Sample.filedId <> "id-Z") by discriminate.
  exact (proj2 (writes_are_confined Sample.host "id-Z" Sample.filedId
                  Sample.accepted Hne) Sample.resolveBody).
Defined.



